(** * Transfer-SOL Blink handlers: a shallow embedding and its properties

    The repository holds four near-identical copies of one Next.js route
    ([GET], [OPTIONS], [POST] and the local helper [prepareTransaction]):

    - [src/app/api/transfer-sol/route.ts]           (module [RouteTs]),
    - the first document of [route.tsx]             (module [RouteTsxStatic]),
    - the second document of [route.tsx]            (module [RouteTsx]),
    - the file with [verifyTransferInstruction]     (module [RouteHelper]).

    JavaScript numbers are IEEE-754 binary64 values, taken from the
    executable specification [SpecFloat]; strings are byte strings (the
    UTF-8 encoding of the JavaScript string).  The Solana SDK is an external
    collaborator: it enters as an interface ([Web3]) whose operations may
    throw, and the handlers record every call they make to it. *)

From Stdlib Require Import ZArith NArith List String Ascii Bool Lia.
From Stdlib Require Import Strings.Byte.
From Stdlib Require Import Floats.SpecFloat.
Import ListNotations.

Local Open Scope list_scope.
Local Open Scope string_scope.

(* ===================================================================== *)
(** * JavaScript numbers and [Number(string)] *)
(* ===================================================================== *)

Module JS.

(** A JavaScript number: binary64, one NaN. *)
Definition number : Type := spec_float.

Definition prec : Z := 53%Z.
Definition emax : Z := 1024%Z.

Definition NaN : number := S754_nan.
Definition Infinity : number := S754_infinity false.
Definition pos_zero : number := S754_zero false.

(** An integer as a number (round to nearest, ties to even). *)
Definition of_Z (z : Z) : number := binary_normalize prec emax z 0%Z false.

(** [x * y] *)
Definition mul (x y : number) : number := SFmul prec emax x y.

Definition is_nan (x : number) : bool :=
  match x with S754_nan => true | _ => false end.

Definition is_zero (x : number) : bool :=
  match x with S754_zero _ => true | _ => false end.

Definition is_negative (x : number) : bool :=
  match x with
  | S754_finite true _ _ | S754_infinity true => true
  | _ => false
  end.

Definition is_infinite (x : number) : bool :=
  match x with S754_infinity _ => true | _ => false end.

(** ToBoolean on a number: [NaN], [+0] and [-0] are falsy. *)
Definition number_truthy (x : number) : bool :=
  negb (is_nan x || is_zero x).

(** ** StringToNumber (ECMA-262, 7.1.4.1.1) *)

Definition chars (s : string) : list ascii := list_ascii_of_string s.

Definition is_digit (c : ascii) : bool :=
  let n := nat_of_ascii c in (48 <=? n)%nat && (n <=? 57)%nat.

Definition digit_val (c : ascii) : Z := (Z.of_nat (nat_of_ascii c) - 48)%Z.

(** Value of a digit in base 16, 8 or 2; [None] when [c] is no such digit. *)
Definition radix_digit (radix : Z) (c : ascii) : option Z :=
  let n := Z.of_nat (nat_of_ascii c) in
  let v :=
    (if (48 <=? n) && (n <=? 57) then n - 48
     else if (97 <=? n) && (n <=? 102) then n - 87
     else if (65 <=? n) && (n <=? 70) then n - 55
     else 16)%Z in
  if (v <? radix)%Z then Some v else None.

(** White space and line terminators, as UTF-8 byte sequences: TAB, LF, VT,
    FF, CR, SP, U+00A0, U+1680, U+2000..U+200A, U+2028, U+2029, U+202F,
    U+205F, U+3000 and U+FEFF. *)
Definition byte_of (c : ascii) : nat := nat_of_ascii c.

Definition ws3 (a b c : nat) : bool :=
  match a, b with
  | 225, 154 => (c =? 128)%nat
  | 226, 128 => ((128 <=? c) && (c <=? 138) || (c =? 168) || (c =? 169)
                 || (c =? 175))%nat
  | 226, 129 => (c =? 159)%nat
  | 227, 128 => (c =? 128)%nat
  | 239, 187 => (c =? 191)%nat
  | _, _ => false
  end.

Definition ws1 (a : nat) : bool :=
  ((9 <=? a) && (a <=? 13) || (a =? 32))%nat.

Fixpoint skip_ws (fuel : nat) (l : list ascii) : list ascii :=
  match fuel with
  | O => l
  | S fuel' =>
    match l with
    | a :: t =>
      if ws1 (byte_of a) then skip_ws fuel' t
      else match t with
           | b :: t' =>
             if ((byte_of a =? 194) && (byte_of b =? 160))%nat
             then skip_ws fuel' t'
             else match t' with
                  | c :: t'' =>
                    if ws3 (byte_of a) (byte_of b) (byte_of c)
                    then skip_ws fuel' t'' else l
                  | [] => l
                  end
           | [] => l
           end
    | [] => l
    end
  end.

(** The same from the right end, on the reversed list. *)
Fixpoint skip_ws_rev (fuel : nat) (l : list ascii) : list ascii :=
  match fuel with
  | O => l
  | S fuel' =>
    match l with
    | a :: t =>
      if ws1 (byte_of a) then skip_ws_rev fuel' t
      else match t with
           | b :: t' =>
             if ((byte_of b =? 194) && (byte_of a =? 160))%nat
             then skip_ws_rev fuel' t'
             else match t' with
                  | c :: t'' =>
                    if ws3 (byte_of c) (byte_of b) (byte_of a)
                    then skip_ws_rev fuel' t'' else l
                  | [] => l
                  end
           | [] => l
           end
    | [] => l
    end
  end.

Definition trim (l : list ascii) : list ascii :=
  let l1 := skip_ws (List.length l) l in
  rev (skip_ws_rev (List.length l1) (rev l1)).

(** Leading decimal digits: their value, their count, and the rest. *)
Fixpoint take_digits (acc : Z) (n : Z) (l : list ascii) : Z * Z * list ascii :=
  match l with
  | c :: t =>
    if is_digit c then take_digits (10 * acc + digit_val c)%Z (n + 1)%Z t
    else (acc, n, l)
  | [] => (acc, n, l)
  end.

(** [m * 10^e] rounded once to binary64, with sign [neg]. *)
Definition of_decimal (neg : bool) (m : Z) (e : Z) : number :=
  match m with
  | Zpos p =>
    match e with
    | Zneg k =>
      SFdiv prec emax (S754_finite neg p 0%Z)
                      (S754_finite false (Pos.pow 10 k) 0%Z)
    | _ => binary_normalize prec emax
             (if neg then - (m * 10 ^ e) else m * 10 ^ e)%Z 0 false
    end
  | _ => S754_zero neg
  end.

(** ExponentPart_opt followed by the end of the input. *)
Definition exponent_part (l : list ascii) : option Z :=
  match l with
  | [] => Some 0%Z
  | c :: t =>
    if (nat_of_ascii c =? 101)%nat || (nat_of_ascii c =? 69)%nat then
      let '(neg, t1) :=
        match t with
        | s :: t' =>
          if (nat_of_ascii s =? 45)%nat then (true, t')
          else if (nat_of_ascii s =? 43)%nat then (false, t')
          else (false, t)
        | [] => (false, t)
        end in
      match take_digits 0%Z 0%Z t1 with
      | (v, n, []) => if (0 <? n)%Z then Some (if neg then - v else v)%Z else None
      | _ => None
      end
    else None
  end.

(** StrUnsignedDecimalLiteral, to the end of the input. *)
Definition unsigned_decimal (neg : bool) (l : list ascii) : number :=
  if list_eq_dec ascii_dec l (chars "Infinity") then S754_infinity neg
  else
    let '(ip, ni, r1) := take_digits 0%Z 0%Z l in
    let '(m, nf, r2) :=
      match r1 with
      | c :: t => if (nat_of_ascii c =? 46)%nat then
                    let '(m, nf, r2) := take_digits ip 0%Z t in (m, nf, r2)
                  else (ip, 0%Z, r1)
      | [] => (ip, 0%Z, r1)
      end in
    if (0 <? ni + nf)%Z then
      match exponent_part r2 with
      | Some e => of_decimal neg m (e - nf)%Z
      | None => NaN
      end
    else NaN.

(** Digits of a NonDecimalIntegerLiteral, to the end of the input. *)
Fixpoint radix_digits (radix : Z) (acc : Z) (l : list ascii) : option Z :=
  match l with
  | [] => Some acc
  | c :: t =>
    match radix_digit radix c with
    | Some v => radix_digits radix (radix * acc + v)%Z t
    | None => None
    end
  end.

Definition non_decimal (l : list ascii) : option number :=
  match l with
  | z :: x :: ((d :: _) as ds) =>
    if (nat_of_ascii z =? 48)%nat then
      let radix :=
        match nat_of_ascii x with
        | 120 | 88 => Some 16%Z
        | 111 | 79 => Some 8%Z
        | 98 | 66 => Some 2%Z
        | _ => None
        end%nat in
      match radix with
      | Some r => Some match radix_digits r 0%Z ds with
                       | Some v => of_Z v
                       | None => NaN
                       end
      | None => None
      end
    else None
  | _ => None
  end.

(** ToNumber on a string. *)
Definition StringToNumber (s : string) : number :=
  match trim (chars s) with
  | [] => pos_zero
  | (c :: t) as l =>
    match non_decimal l with
    | Some x => x
    | None =>
      if (nat_of_ascii c =? 45)%nat then unsigned_decimal true t
      else if (nat_of_ascii c =? 43)%nat then unsigned_decimal false t
      else unsigned_decimal false l
    end
  end.

(** [Number(x)] for [x : string | null]: [null] converts to [+0]. *)
Definition Number (x : option string) : number :=
  match x with
  | Some s => StringToNumber s
  | None => pos_zero
  end.

End JS.

(* ===================================================================== *)
(** * JSON values, [JSON.stringify], ToBoolean *)
(* ===================================================================== *)

Module Json.

#[local] Unset Elimination Schemes.

(** What [JSON.parse] (and so [req.json()]) can return.  An object is the
    list of its own properties, looked up by first match. *)
Inductive value : Type :=
| JNull
| JBool (b : bool)
| JNumber (x : JS.number)
| JString (s : string)
| JArray (items : list value)
| JObject (fields : list (string * value)).

(** What a property read or a nullable API hands to the code. *)
Inductive jsval : Type :=
| Undefined
| Val (v : value).

(** ToBoolean: [!x] is [negb (truthy x)]. *)
Definition truthy (x : jsval) : bool :=
  match x with
  | Undefined | Val JNull => false
  | Val (JBool b) => b
  | Val (JNumber n) => JS.number_truthy n
  | Val (JString s) => negb (String.eqb s "")
  | Val (JArray _) | Val (JObject _) => true
  end.

Fixpoint assoc {A : Type} (k : string) (l : list (string * A)) : option A :=
  match l with
  | [] => None
  | (k', v) :: t => if String.eqb k k' then Some v else assoc k t
  end.

(** [o.name] for a parsed JSON value [o]: [None] is the TypeError of a
    property read on [null]; primitives and arrays have no such property. *)
Definition get_property (o : value) (name : string) : option jsval :=
  match o with
  | JNull => None
  | JObject fields =>
    Some match assoc name fields with
         | Some v => Val v
         | None => Undefined
         end
  | _ => Some Undefined
  end.

(** A nullable string ([string | null]) as a value. *)
Definition of_nullable (s : option string) : jsval :=
  match s with
  | Some s => Val (JString s)
  | None => Val JNull
  end.

(** The JSON documents the handlers serialise: strings, booleans, arrays
    and objects in property order. *)
Inductive doc : Type :=
| DString (s : string)
| DBool (b : bool)
| DArray (items : list doc)
| DObject (fields : list (string * doc)).

(** [d.name] on such a document. *)
Definition field (name : string) (d : doc) : option doc :=
  match d with
  | DObject fields => assoc name fields
  | _ => None
  end.

Definition hex_digit (n : nat) : ascii :=
  ascii_of_nat (if (n <? 10)%nat then 48 + n else 87 + n).

(** QuoteJSONString, one code unit at a time. *)
Definition quote_char (c : ascii) : string :=
  let n := nat_of_ascii c in
  match n with
  | 8 => "\b"
  | 9 => "\t"
  | 10 => "\n"
  | 12 => "\f"
  | 13 => "\r"
  | 34 => String "\"%char (String c "")
  | 92 => "\\"
  | _ => if (n <? 32)%nat
         then "\u00" ++ String (hex_digit (n / 16)) (String (hex_digit (n mod 16)) "")
         else String c ""
  end%nat.

Fixpoint quote_body (s : string) : string :=
  match s with
  | EmptyString => ""
  | String c t => quote_char c ++ quote_body t
  end.

Definition dquote : string := String (ascii_of_nat 34) "".

Definition quote (s : string) : string := dquote ++ quote_body s ++ dquote.

(** [JSON.stringify] without indentation. *)
Fixpoint stringify (d : doc) : string :=
  match d with
  | DString s => quote s
  | DBool b => if b then "true" else "false"
  | DArray items =>
    let fix go (first : bool) (l : list doc) : string :=
      match l with
      | [] => ""
      | x :: t => (if first then "" else ",") ++ stringify x ++ go false t
      end in
    "[" ++ go true items ++ "]"
  | DObject fields =>
    let fix go (first : bool) (l : list (string * doc)) : string :=
      match l with
      | [] => ""
      | (k, x) :: t =>
        (if first then "" else ",") ++ quote k ++ ":" ++ stringify x ++ go false t
      end in
    "{" ++ go true fields ++ "}"
  end.

End Json.

(* ===================================================================== *)
(** * URLs *)
(* ===================================================================== *)

Module Url.

(** A parsed absolute URL with an authority and no credentials (a
    [Request] never carries credentials in its URL).  [protocol] ends in
    [":"], [host] includes the port, [search] and [hash] are empty or start
    with ["?"] and ["#"]. *)
Record URL : Type := {
  protocol : string;
  host : string;
  pathname : string;
  search : string;
  hash : string
}.

(** [u.toString()], the [href]. *)
Definition toString (u : URL) : string :=
  protocol u ++ "//" ++ host u ++ pathname u ++ search u ++ hash u.

(** [new URL(path, base)] for a [path] that starts with one ["/"], has no
    dot segment and no character to escape: scheme and host of [base], the
    given path, no query, no fragment. *)
Definition resolve_path (path : string) (base : URL) : URL :=
  {| protocol := protocol base; host := host base;
     pathname := path; search := ""; hash := "" |}.

(** ** The query: [url.searchParams] *)

Definition hex_val (c : ascii) : option nat :=
  let n := nat_of_ascii c in
  if (48 <=? n)%nat && (n <=? 57)%nat then Some (n - 48)%nat
  else if (97 <=? n)%nat && (n <=? 102)%nat then Some (n - 87)%nat
  else if (65 <=? n)%nat && (n <=? 70)%nat then Some (n - 55)%nat
  else None.

(** Percent-decoding, after ["+"] has become a space. *)
Fixpoint percent_decode (s : string) : string :=
  match s with
  | EmptyString => ""
  | String c t =>
    let plain := String (if (nat_of_ascii c =? 43)%nat then " "%char else c)
                        (percent_decode t) in
    if (nat_of_ascii c =? 37)%nat then
      match t with
      | String h (String l t') =>
        match hex_val h, hex_val l with
        | Some a, Some b =>
          String (ascii_of_nat (16 * a + b)) (percent_decode t')
        | _, _ => plain
        end
      | _ => plain
      end
    else plain
  end.

(** Split at every occurrence of [sep]. *)
Fixpoint split_on (sep : ascii) (s : string) : list string :=
  match s with
  | EmptyString => [""]
  | String c t =>
    if Ascii.eqb c sep then "" :: split_on sep t
    else match split_on sep t with
         | w :: ws => String c w :: ws
         | [] => [String c ""]
         end
  end.

(** Split at the first ["="]; no ["="] gives an empty value. *)
Fixpoint split_pair (s : string) : string * string :=
  match s with
  | EmptyString => ("", "")
  | String c t =>
    if (nat_of_ascii c =? 61)%nat then ("", t)
    else let '(k, v) := split_pair t in (String c k, v)
  end.

(** The application/x-www-form-urlencoded parser on the query.  The decoded
    bytes are kept as they are (the platform replaces what is not UTF-8 by
    U+FFFD). *)
Definition searchParams (u : URL) : list (string * string) :=
  let q := match search u with
           | String c t => if (nat_of_ascii c =? 63)%nat then t else search u
           | EmptyString => ""
           end in
  map (fun kv => let '(k, v) := split_pair kv in
                 (percent_decode k, percent_decode v))
      (filter (fun kv => negb (String.eqb kv "")) (split_on "&"%char q)).

(** [url.searchParams.get(name)]: the first value, or [null]. *)
Definition get (u : URL) (name : string) : option string :=
  Json.assoc name (searchParams u).

(** ** Reading the host back from an [href] *)







End Url.

(* ===================================================================== *)
(** * [Buffer.from(bytes).toString("base64")] *)
(* ===================================================================== *)

Module Base64.

Definition alphabet : string :=
  "ABCDEFGHIJKLMNOPQRSTUVWXYZabcdefghijklmnopqrstuvwxyz0123456789+/".

Definition sextet (n : N) : ascii :=
  match String.get (N.to_nat (n mod 64)) alphabet with
  | Some c => c
  | None => "="%char
  end.

Definition pad : ascii := "="%char.

Fixpoint encode (l : list byte) : string :=
  match l with
  | a :: b :: c :: t =>
    let n := (Byte.to_N a * 65536 + Byte.to_N b * 256 + Byte.to_N c)%N in
    String (sextet (n / 262144)) (String (sextet (n / 4096))
      (String (sextet (n / 64)) (String (sextet n) (encode t))))
  | [a; b] =>
    let n := (Byte.to_N a * 65536 + Byte.to_N b * 256)%N in
    String (sextet (n / 262144)) (String (sextet (n / 4096))
      (String (sextet (n / 64)) (String pad "")))
  | [a] =>
    let n := (Byte.to_N a * 65536)%N in
    String (sextet (n / 262144)) (String (sextet (n / 4096))
      (String pad (String pad "")))
  | [] => ""
  end.

End Base64.

(* ===================================================================== *)
(** * The external SDK *)
(* ===================================================================== *)

(** Argument of [new PublicKey(value)]: a runtime value (a string, [null],
    [undefined], anything a JSON body can hold) or a key object. *)
Inductive PublicKeyInitData (K : Type) : Type :=
| FromValue (v : Json.jsval)
| FromKey (k : K).
Arguments FromValue {K} v.
Arguments FromKey {K} k.

(** Argument of [SystemProgram.transfer]. *)
Record TransferParams (K : Type) : Type := {
  fromPubkey : K;
  toPubkey : K;
  lamports : JS.number
}.
Arguments fromPubkey {K} _.
Arguments toPubkey {K} _.
Arguments lamports {K} _.

(** Argument of [new TransactionMessage]. *)
Record TransactionMessageArgs (K B I : Type) : Type := {
  payerKey : K;
  recentBlockhash : B;
  instructions : list I
}.
Arguments payerKey {K B I} _.
Arguments recentBlockhash {K B I} _.
Arguments instructions {K B I} _.

(** The operations of [@solana/web3.js] and [@solana/actions] the routes
    use.  [None] stands for a thrown exception (or a rejected promise).
    [getLatestBlockhash] is the one network round trip; the [Connection]
    value stands for the ledger as it answers this request. *)
Class Web3 : Type := {
  PublicKey : Type;
  Blockhash : Type;
  TransactionInstruction : Type;
  MessageV0 : Type;
  VersionedTransaction : Type;
  Connection : Type;
  Headers : Type;
  createActionHeaders : Headers;
  new_PublicKey : PublicKeyInitData PublicKey -> option PublicKey;
  SystemProgram_transfer : TransferParams PublicKey -> option TransactionInstruction;
  getLatestBlockhash : Connection -> option Blockhash;
  compileToV0Message :
    TransactionMessageArgs PublicKey Blockhash TransactionInstruction ->
    option MessageV0;
  new_VersionedTransaction : MessageV0 -> option VersionedTransaction;
  serialize : VersionedTransaction -> option (list byte)
}.

(** Modelled from the spec: the SDK constant [LAMPORTS_PER_SOL], the scale
    factor between the user-facing unit and the indivisible unit, is not
    declared in the repository; the spec gives it as 10^9. *)
Definition LAMPORTS_PER_SOL : JS.number := JS.of_Z 1000000000.

(* ===================================================================== *)
(** * Effects: calls to the SDK, exceptions *)
(* ===================================================================== *)

(** What is thrown, or given as the reason of a rejected promise. *)
Inductive exn : Type :=
| Error (message : string)
| Foreign
| InvalidTransferInstruction (cause : exn).

Section Effects.
Context `{W : Web3}.

(** One call to the SDK, with its arguments. *)
Inductive call : Type :=
| NewPublicKey (value : PublicKeyInitData PublicKey)
| Transfer (params : TransferParams PublicKey)
| GetLatestBlockhash (c : Connection)
| CompileToV0Message
    (args : TransactionMessageArgs PublicKey Blockhash TransactionInstruction)
| NewVersionedTransaction (message : MessageV0)
| Serialize (transaction : VersionedTransaction).

(** A computation: the SDK calls it made, in order, and how it ended. *)
Definition M (A : Type) : Type := (list call * (exn + A))%type.

Definition ret {A} (a : A) : M A := ([], inr a).

Definition throw {A} (e : exn) : M A := ([], inl e).

Definition bind {A B} (m : M A) (k : A -> M B) : M B :=
  match m with
  | (t, inl e) => (t, inl e)
  | (t, inr a) => let '(t', r) := k a in ((t ++ t')%list, r)
  end.

(** [try { m } catch (error) { handler error }] *)
Definition try_catch {A} (m : M A) (handler : exn -> M A) : M A :=
  match m with
  | (t, inl e) => let '(t', r) := handler e in ((t ++ t')%list, r)
  | (t, inr a) => (t, inr a)
  end.

(** A call to the SDK: logged, then its result or its exception. *)
Definition invoke {A} (c : call) (result : option A) : M A :=
  ([c], match result with Some a => inr a | None => inl Foreign end).

(** A runtime operation that may throw and is not logged. *)
Definition runtime {A} (result : option A) : M A :=
  match result with Some a => ret a | None => throw Foreign end.

Definition trace {A} (m : M A) : list call := fst m.
Definition outcome {A} (m : M A) : exn + A := snd m.

End Effects.

Declare Scope js_scope.
Delimit Scope js_scope with js.
Notation "'do' x <- m ; k" := (bind m (fun x => k))
  (at level 10, x name, m at level 100, k at level 200,
   format "'[v' 'do'  x  <-  m ; '/' k ']'") : js_scope.
Notation "'new' 'PublicKey' ( v )" := (invoke (NewPublicKey v) (new_PublicKey v))
  (at level 0, v at level 200) : js_scope.
Local Open Scope js_scope.

(* ===================================================================== *)
(** * Requests, responses and the Actions documents *)
(* ===================================================================== *)

Module Http.

(** The parts of a [Request] the routes read: its URL, and what
    [req.json()] resolves to ([None]: it rejects, the body is not JSON). *)
Record Request : Type := {
  url : Url.URL;
  json : option Json.value
}.

Section Responses.
Context `{W : Web3}.

Record Response : Type := {
  status : nat;
  headers : Headers;
  body : option string
}.

(** [new Response(body, { status, headers })] *)
Definition new_Response (b : option string) (st : nat) (h : Headers) : Response :=
  {| status := st; headers := h; body := b |}.

(** [Response.json(data, { status, headers })] *)
Definition Response_json (data : Json.doc) (st : nat) (h : Headers) : Response :=
  {| status := st; headers := h; body := Some (Json.stringify data) |}.

End Responses.
End Http.

Module ActionParameter.
Record t : Type := {
  type : string;
  label : string;
  name : string;
  required : bool
}.
Definition to_doc (p : t) : Json.doc :=
  Json.DObject [("type", Json.DString (type p));
                ("label", Json.DString (label p));
                ("name", Json.DString (name p));
                ("required", Json.DBool (required p))].
End ActionParameter.

Module LinkedAction.
Record t : Type := {
  type : string;
  label : string;
  href : string;
  parameters : list ActionParameter.t
}.
Definition to_doc (a : t) : Json.doc :=
  Json.DObject [("type", Json.DString (type a));
                ("label", Json.DString (label a));
                ("href", Json.DString (href a));
                ("parameters",
                 Json.DArray (map ActionParameter.to_doc (parameters a)))].
End LinkedAction.

Module ActionGetResponse.
Record links_t : Type := { actions : list LinkedAction.t }.
Record t : Type := {
  type : string;
  icon : string;
  label : string;
  title : string;
  description : string;
  links : links_t
}.
Definition to_doc (r : t) : Json.doc :=
  Json.DObject [("type", Json.DString (type r));
                ("icon", Json.DString (icon r));
                ("label", Json.DString (label r));
                ("title", Json.DString (title r));
                ("description", Json.DString (description r));
                ("links",
                 Json.DObject
                   [("actions",
                     Json.DArray (map LinkedAction.to_doc (actions (links r))))])].
End ActionGetResponse.

Module ActionPostResponse.
Record t : Type := {
  type : string;
  transaction : string
}.
Definition to_doc (r : t) : Json.doc :=
  Json.DObject [("type", Json.DString (type r));
                ("transaction", Json.DString (transaction r))].
End ActionPostResponse.

(** The body of the catch-all answer, [{ error: "Internal server error" }]. *)
Definition internal_server_error : Json.doc :=
  Json.DObject [("error", Json.DString "Internal server error")].

Definition newline : string := String (ascii_of_nat 10) "".

(* ===================================================================== *)
(** * [src/app/api/transfer-sol/route.ts] *)
(* ===================================================================== *)

Module RouteTs.
Section Route.
Context `{W : Web3}.

(** [const headers = createActionHeaders();] *)
Definition headers : Headers := createActionHeaders.

(** [const connection = new Connection(...)], the handle on the ledger. *)
Variable connection : Connection.

Definition metadata (req : Http.Request) : ActionGetResponse.t :=
  {| ActionGetResponse.type := "action";
     ActionGetResponse.icon :=
       Url.toString (Url.resolve_path "/transfer-sol.png" (Http.url req));
     ActionGetResponse.label := "Send SOL";
     ActionGetResponse.title := "Send SOL with a Blink";
     ActionGetResponse.description :=
       "This Blink demonstrates how to send SOL on the Solana blockchain. It is a part of the official Blink Starter Guides by Dialect Labs.  "
       ++ newline ++ newline ++
       "Learn how to build this Blink: https://dialect.to/docs/guides/transfer-sol";
     ActionGetResponse.links :=
       {| ActionGetResponse.actions :=
            [ {| LinkedAction.type := "transaction";
                 LinkedAction.label := "Send SOL";
                 LinkedAction.href :=
                   "/api/transfer-sol?receiver={receiver}&amount={amount}";
                 LinkedAction.parameters :=
                   [ {| ActionParameter.type := "text";
                        ActionParameter.label := "Recipient Public Key";
                        ActionParameter.name := "receiver";
                        ActionParameter.required := true |};
                     {| ActionParameter.type := "number";
                        ActionParameter.label := "Amount";
                        ActionParameter.name := "amount";
                        ActionParameter.required := true |} ] |} ] |} |}.

Definition GET (req : Http.Request) : M Http.Response :=
  let response := metadata req in
  ret (Http.new_Response
         (Some (Json.stringify (ActionGetResponse.to_doc response)))
         200 headers).

Definition OPTIONS : M Http.Response :=
  ret (Http.new_Response None 200 headers).

Definition prepareTransaction
    (connection : Connection) (payer receiver : PublicKey)
    (amount : JS.number) : M VersionedTransaction :=
  do toPubkey <- new PublicKey (FromKey receiver);
  let params := {| fromPubkey := payer;
                   toPubkey := toPubkey;
                   lamports := JS.mul amount LAMPORTS_PER_SOL |} in
  do instruction <- invoke (Transfer params) (SystemProgram_transfer params);
  do blockhash <- invoke (GetLatestBlockhash connection)
                         (getLatestBlockhash connection);
  let args := {| payerKey := payer;
                 recentBlockhash := blockhash;
                 instructions := [instruction] |} in
  do message <- invoke (CompileToV0Message args) (compileToV0Message args);
  invoke (NewVersionedTransaction message) (new_VersionedTransaction message).

Definition POST (req : Http.Request) : M Http.Response :=
  try_catch
    (let url := Http.url req in
     do receiver <-
       new PublicKey (FromValue (Json.of_nullable (Url.get url "receiver")));
     let amount := JS.Number (Url.get url "amount") in
     do request <- runtime (Http.json req);
     do account <- runtime (Json.get_property request "account");
     do payer <- new PublicKey (FromValue account);
     do transaction <- prepareTransaction connection payer receiver amount;
     do bytes <- invoke (Serialize transaction) (serialize transaction);
     let response :=
       {| ActionPostResponse.type := "transaction";
          ActionPostResponse.transaction := Base64.encode bytes |} in
     ret (Http.Response_json (ActionPostResponse.to_doc response) 200 headers))
    (fun error =>
       ret (Http.new_Response (Some (Json.stringify internal_server_error))
                              500 headers)).

End Route.
End RouteTs.

(* ===================================================================== *)
(** * [src/app/api/transfer-sol/route.tsx], first document *)
(* ===================================================================== *)

(** ToBoolean on an object reference: always true. *)
Definition object_truthy {A : Type} (_ : A) : bool := true.

Module RouteTsxStatic.
Section Route.
Context `{W : Web3}.

Definition headers : Headers := createActionHeaders.

Variable connection : Connection.

Definition metadata (req : Http.Request) : ActionGetResponse.t :=
  {| ActionGetResponse.type := "action";
     ActionGetResponse.icon := "http://localhost:3000/transfer-sol.png";
     ActionGetResponse.label := "Send SOL";
     ActionGetResponse.title := "Send SOL to a friend";
     ActionGetResponse.description :=
       "Send SOL to a friend using their public key.";
     ActionGetResponse.links :=
       {| ActionGetResponse.actions :=
            [ {| LinkedAction.type := "transaction";
                 LinkedAction.label := "Send SOL";
                 LinkedAction.href :=
                   "/api/transfer-sol?receiver={receiver}&amount={amount}";
                 LinkedAction.parameters :=
                   [ {| ActionParameter.type := "text";
                        ActionParameter.label := "Recipient Public Key";
                        ActionParameter.name := "receiver";
                        ActionParameter.required := true |};
                     {| ActionParameter.type := "number";
                        ActionParameter.label := "Amount";
                        ActionParameter.name := "amount";
                        ActionParameter.required := true |} ] |} ] |} |}.

Definition GET (req : Http.Request) : M Http.Response :=
  let response := metadata req in
  ret (Http.new_Response
         (Some (Json.stringify (ActionGetResponse.to_doc response)))
         200 headers).

Definition OPTIONS (req : Http.Request) : M Http.Response :=
  ret (Http.new_Response None 200 headers).

Definition prepareTransaction
    (connection : Connection) (payer receiver : PublicKey)
    (amount : JS.number) : M VersionedTransaction :=
  do toPubkey <- new PublicKey (FromKey receiver);
  let params := {| fromPubkey := payer;
                   toPubkey := toPubkey;
                   lamports := JS.mul amount LAMPORTS_PER_SOL |} in
  do instruction <- invoke (Transfer params) (SystemProgram_transfer params);
  do blockhash <- invoke (GetLatestBlockhash connection)
                         (getLatestBlockhash connection);
  let args := {| payerKey := payer;
                 recentBlockhash := blockhash;
                 instructions := [instruction] |} in
  do message <- invoke (CompileToV0Message args) (compileToV0Message args);
  invoke (NewVersionedTransaction message) (new_VersionedTransaction message).

Definition POST (req : Http.Request) : M Http.Response :=
  try_catch
    (let url := Http.url req in
     let receiverString := Url.get url "receiver" in
     do receiver <- new PublicKey (FromValue (Json.of_nullable receiverString));
     let amount := JS.Number (Url.get url "amount") in
     do request <- runtime (Http.json req);
     do account <- runtime (Json.get_property request "account");
     do payer <- new PublicKey (FromValue account);
     if negb (object_truthy receiver) || negb (JS.number_truthy amount) then
       ret (Http.new_Response None 400 headers)
     else
       do transaction <- prepareTransaction connection payer receiver amount;
       do bytes <- invoke (Serialize transaction) (serialize transaction);
       let response :=
         {| ActionPostResponse.type := "transaction";
            ActionPostResponse.transaction := Base64.encode bytes |} in
       ret (Http.Response_json (ActionPostResponse.to_doc response) 200 headers))
    (fun error =>
       ret (Http.new_Response (Some (Json.stringify internal_server_error))
                              500 headers)).

End Route.
End RouteTsxStatic.

(* ===================================================================== *)
(** * [src/app/api/transfer-sol/route.tsx], second document *)
(* ===================================================================== *)

Module RouteTsx.
Section Route.
Context `{W : Web3}.

Definition headers : Headers := createActionHeaders.

Variable connection : Connection.

Definition metadata (req : Http.Request) : ActionGetResponse.t :=
  {| ActionGetResponse.type := "action";
     ActionGetResponse.icon :=
       Url.toString (Url.resolve_path "/transfer-sol.png" (Http.url req));
     ActionGetResponse.label := "Send SOL";
     ActionGetResponse.title := "Send SOL with a Blink";
     ActionGetResponse.description :=
       "This Blink demonstrates how to send SOL on the Solana blockchain. It is a part of the official Blink Starter Guides by Dialect Labs.  "
       ++ newline ++ newline ++
       "Learn how to build this Blink: https://dialect.to/docs/guides/transfer-sol";
     ActionGetResponse.links :=
       {| ActionGetResponse.actions :=
            [ {| LinkedAction.type := "transaction";
                 LinkedAction.label := "Send SOL";
                 LinkedAction.href :=
                   "/api/transfer-sol?receiver={receiver}&amount={amount}";
                 LinkedAction.parameters :=
                   [ {| ActionParameter.type := "text";
                        ActionParameter.label := "Recipient Public Key";
                        ActionParameter.name := "receiver";
                        ActionParameter.required := true |};
                     {| ActionParameter.type := "number";
                        ActionParameter.label := "Amount";
                        ActionParameter.name := "amount";
                        ActionParameter.required := true |} ] |} ] |} |}.

Definition GET (req : Http.Request) : M Http.Response :=
  let response := metadata req in
  ret (Http.new_Response
         (Some (Json.stringify (ActionGetResponse.to_doc response)))
         200 headers).

Definition OPTIONS : M Http.Response :=
  ret (Http.new_Response None 200 headers).

Definition prepareTransaction
    (connection : Connection) (payer receiver : PublicKey)
    (amount : JS.number) : M VersionedTransaction :=
  do toPubkey <- new PublicKey (FromKey receiver);
  let params := {| fromPubkey := payer;
                   toPubkey := toPubkey;
                   lamports := JS.mul amount LAMPORTS_PER_SOL |} in
  do instruction <- invoke (Transfer params) (SystemProgram_transfer params);
  do blockhash <- invoke (GetLatestBlockhash connection)
                         (getLatestBlockhash connection);
  let args := {| payerKey := payer;
                 recentBlockhash := blockhash;
                 instructions := [instruction] |} in
  do message <- invoke (CompileToV0Message args) (compileToV0Message args);
  invoke (NewVersionedTransaction message) (new_VersionedTransaction message).

Definition POST (req : Http.Request) : M Http.Response :=
  try_catch
    (let url := Http.url req in
     let receiverString := Url.get url "receiver" in
     do receiver <- new PublicKey (FromValue (Json.of_nullable receiverString));
     let amount := JS.Number (Url.get url "amount") in
     do request <- runtime (Http.json req);
     do account <- runtime (Json.get_property request "account");
     do payer <- new PublicKey (FromValue account);
     if negb (object_truthy receiver) || negb (JS.number_truthy amount) then
       ret (Http.new_Response None 400 headers)
     else
       do transaction <- prepareTransaction connection payer receiver amount;
       do bytes <- invoke (Serialize transaction) (serialize transaction);
       let response :=
         {| ActionPostResponse.type := "transaction";
            ActionPostResponse.transaction := Base64.encode bytes |} in
       ret (Http.Response_json (ActionPostResponse.to_doc response) 200 headers))
    (fun error =>
       ret (Http.new_Response (Some (Json.stringify internal_server_error))
                              500 headers)).

End Route.
End RouteTsx.

(* ===================================================================== *)
(** * The route with [verifyTransferInstruction] *)
(* ===================================================================== *)

Module RouteHelper.
Section Route.
Context `{W : Web3}.

Record TransferInstructionParams : Type := {
  receiver : PublicKey;
  amount : JS.number;
  payer : PublicKey
}.

Definition headers : Headers := createActionHeaders.

Variable connection : Connection.

Definition metadata (req : Http.Request) : ActionGetResponse.t :=
  {| ActionGetResponse.type := "action";
     ActionGetResponse.icon :=
       Url.toString (Url.resolve_path "/transfer-sol.png" (Http.url req));
     ActionGetResponse.label := "Send SOL";
     ActionGetResponse.title := "Send SOL with a Blink";
     ActionGetResponse.description :=
       "This Blink demonstrates how to send SOL on the Solana blockchain. It is a part of the official Blink Starter Guides by Dialect Labs.  "
       ++ newline ++ newline ++
       "Learn how to build this Blink: https://dialect.to/docs/guides/transfer-sol";
     ActionGetResponse.links :=
       {| ActionGetResponse.actions :=
            [ {| LinkedAction.type := "transaction";
                 LinkedAction.label := "Send SOL";
                 LinkedAction.href :=
                   "/api/transfer-sol?receiver={receiver}&amount={amount}";
                 LinkedAction.parameters :=
                   [ {| ActionParameter.type := "text";
                        ActionParameter.label := "Recipient Public Key";
                        ActionParameter.name := "receiver";
                        ActionParameter.required := true |};
                     {| ActionParameter.type := "number";
                        ActionParameter.label := "Amount";
                        ActionParameter.name := "amount";
                        ActionParameter.required := true |} ] |} ] |} |}.

Definition GET (req : Http.Request) : M Http.Response :=
  let response := metadata req in
  ret (Http.new_Response
         (Some (Json.stringify (ActionGetResponse.to_doc response)))
         200 headers).

Definition OPTIONS : M Http.Response :=
  ret (Http.new_Response None 200 headers).

Definition prepareTransaction
    (connection : Connection) (payer receiver : PublicKey)
    (amount : JS.number) : M VersionedTransaction :=
  do toPubkey <- new PublicKey (FromKey receiver);
  let params := {| fromPubkey := payer;
                   toPubkey := toPubkey;
                   lamports := JS.mul amount LAMPORTS_PER_SOL |} in
  do instruction <- invoke (Transfer params) (SystemProgram_transfer params);
  do blockhash <- invoke (GetLatestBlockhash connection)
                         (getLatestBlockhash connection);
  let args := {| payerKey := payer;
                 recentBlockhash := blockhash;
                 instructions := [instruction] |} in
  do message <- invoke (CompileToV0Message args) (compileToV0Message args);
  invoke (NewVersionedTransaction message) (new_VersionedTransaction message).

(** The promise executor catches everything it throws and rejects with
    [`Invalid transfer instruction: ${error.message}`]. *)
Definition verifyTransferInstruction
    (req : Http.Request) : M TransferInstructionParams :=
  try_catch
    (let url := Http.url req in
     do request <- runtime (Http.json req);
     let receiverString := Url.get url "receiver" in
     if negb (Json.truthy (Json.of_nullable receiverString)) then
       throw (Error "Receiver address is required")
     else
     let amountString := Url.get url "amount" in
     if negb (Json.truthy (Json.of_nullable amountString)) then
       throw (Error "Amount is required")
     else
     do account <- runtime (Json.get_property request "account");
     if negb (Json.truthy account) then
       throw (Error "Payer account is required")
     else
     do receiver <- new PublicKey (FromValue (Json.of_nullable receiverString));
     let amount := JS.Number amountString in
     do account' <- runtime (Json.get_property request "account");
     do payer <- new PublicKey (FromValue account');
     ret {| receiver := receiver; amount := amount; payer := payer |})
    (fun error => throw (InvalidTransferInstruction error)).

Definition POST (req : Http.Request) : M Http.Response :=
  try_catch
    (do verified <- verifyTransferInstruction req;
     do transaction <-
       prepareTransaction connection (payer verified) (receiver verified)
                          (amount verified);
     do bytes <- invoke (Serialize transaction) (serialize transaction);
     let response :=
       {| ActionPostResponse.type := "transaction";
          ActionPostResponse.transaction := Base64.encode bytes |} in
     ret (Http.Response_json (ActionPostResponse.to_doc response) 200 headers))
    (fun error =>
       ret (Http.new_Response (Some (Json.stringify internal_server_error))
                              500 headers)).

End Route.
End RouteHelper.

(* ===================================================================== *)
(** * A small executable model of the SDK *)
(* ===================================================================== *)

(** For running the routes on concrete requests.  It follows the SDK where
    a run below depends on it: a key is a base58 string that decodes to 32
    bytes or an existing key object, [null] and [undefined] are refused (the
    constructor reads a property of its argument), and
    [SystemProgram.transfer] converts [lamports] with [BigInt], which
    refuses every number that is not an integer.  Other key sources (numbers,
    byte arrays) are not modelled and refused; amounts outside the unsigned
    64-bit range are refused; the wire format is a stand-in (the eight
    little-endian bytes of the amount). *)
Module Reference.

Definition base58 : string :=
  "123456789ABCDEFGHJKLMNPQRSTUVWXYZabcdefghijkmnopqrstuvwxyz".

Fixpoint position (c : ascii) (s : string) (i : Z) : option Z :=
  match s with
  | EmptyString => None
  | String c' t => if Ascii.eqb c c' then Some i else position c t (i + 1)%Z
  end.

Fixpoint decode_value (acc : Z) (s : string) : option Z :=
  match s with
  | EmptyString => Some acc
  | String c t =>
    match position c base58 0%Z with
    | Some d => decode_value (58 * acc + d)%Z t
    | None => None
    end
  end.

Fixpoint leading_ones (s : string) : Z :=
  match s with
  | String c t => if (nat_of_ascii c =? 49)%nat then (1 + leading_ones t)%Z else 0%Z
  | EmptyString => 0%Z
  end.

Definition byte_length (z : Z) : Z :=
  if (z =? 0)%Z then 0%Z else (Z.log2 z / 8 + 1)%Z.

(** [bs58.decode(s)]: the number of bytes and their big-endian value. *)
Definition bs58_decode (s : string) : option (Z * Z) :=
  match decode_value 0%Z s with
  | Some v => Some ((leading_ones s + byte_length v)%Z, v)
  | None => None
  end.

Record Instruction : Type := {
  source : Z;
  destination : Z;
  units : Z
}.

(** The integer a number denotes, when it is one. *)
Definition integer_of (x : JS.number) : option Z :=
  match x with
  | S754_zero _ => Some 0%Z
  | S754_finite s m e =>
    let v := match e with
             | Zneg k => if (Zpos m mod 2 ^ Zpos k =? 0)%Z
                         then Some (Zpos m / 2 ^ Zpos k)%Z else None
             | _ => Some (Zpos m * 2 ^ e)%Z
             end in
    match v with
    | Some v => Some (if s then (- v)%Z else v)
    | None => None
    end
  | _ => None
  end.

Fixpoint little_endian (n : nat) (z : Z) : list byte :=
  match n with
  | O => []
  | S n' =>
    match Byte.of_N (Z.to_N (z mod 256)) with
    | Some b => b :: little_endian n' (z / 256)%Z
    | None => []
    end
  end.

#[export] Instance sdk : Web3 := {|
  PublicKey := Z;
  Blockhash := string;
  TransactionInstruction := Instruction;
  MessageV0 := TransactionMessageArgs Z string Instruction;
  VersionedTransaction := TransactionMessageArgs Z string Instruction;
  Connection := option string;
  Headers := unit;
  createActionHeaders := tt;
  new_PublicKey := fun value =>
    match value with
    | FromKey k => Some k
    | FromValue (Json.Val (Json.JString s)) =>
      match bs58_decode s with
      | Some (len, v) => if (len =? 32)%Z then Some v else None
      | None => None
      end
    | FromValue _ => None
    end;
  SystemProgram_transfer := fun params =>
    match integer_of (lamports params) with
    | Some v =>
      if (0 <=? v)%Z && (v <? 2 ^ 64)%Z
      then Some {| source := fromPubkey params;
                   destination := toPubkey params;
                   units := v |}
      else None
    | None => None
    end;
  getLatestBlockhash := fun c => c;
  compileToV0Message := fun args => Some args;
  new_VersionedTransaction := fun message => Some message;
  serialize := fun transaction =>
    Some (flat_map (fun i => little_endian 8 (units i)) (instructions transaction))
|}.

(** Two well-known devnet accounts, and a ledger that answers. *)
Definition alice : string := "So11111111111111111111111111111111111111112".
Definition bob : string := "TokenkegQfeZyiNwAJbNbGKPFXCWuBvf9Ss623VQ5DA".
Definition devnet : option string :=
  Some "EkSnNWid2cvwEVnVx9aBqawnmiCNiDgp3gUdkDPTKN1N".

(** [POST <path><search>] with the JSON body [{ "account": account }]. *)
Definition post (search : string) (account : string) : Http.Request :=
  {| Http.url := {| Url.protocol := "https:";
                    Url.host := "blinks.example";
                    Url.pathname := "/api/transfer-sol";
                    Url.search := search;
                    Url.hash := "" |};
     Http.json := Some (Json.JObject [("account", Json.JString account)]) |}.

(** A well-formed transfer of 1.5 SOL. *)
Definition transfer_request : Http.Request :=
  post ("?receiver=" ++ bob ++ "&amount=1.5") alice.

(** The same with the amount [0], with no amount, with the amount [abc]. *)
Definition zero_amount_request : Http.Request :=
  post ("?receiver=" ++ bob ++ "&amount=0") alice.

Definition missing_amount_request : Http.Request :=
  post ("?receiver=" ++ bob) alice.

Definition non_numeric_amount_request : Http.Request :=
  post ("?receiver=" ++ bob ++ "&amount=abc") alice.

Definition negative_amount_request : Http.Request :=
  post ("?receiver=" ++ bob ++ "&amount=-1") alice.

Definition infinite_amount_request : Http.Request :=
  post ("?receiver=" ++ bob ++ "&amount=Infinity") alice.

(** A metadata request on the same host. *)
Definition metadata_request : Http.Request :=
  {| Http.url := {| Url.protocol := "https:";
                    Url.host := "blinks.example";
                    Url.pathname := "/api/transfer-sol";
                    Url.search := "";
                    Url.hash := "" |};
     Http.json := None |}.


(** The transfer of 1.5 SOL again, under another path, with further query
    parameters, a second [amount], a fragment and a further body field. *)
Definition transfer_request_with_extras : Http.Request :=
  {| Http.url := {| Url.protocol := "https:";
                    Url.host := "blinks.example";
                    Url.pathname := "/other";
                    Url.search := "?receiver=" ++ bob
                                  ++ "&memo=1&amount=1.5&amount=9";
                    Url.hash := "#top" |};
     Http.json := Some (Json.JObject [("memo", Json.JString "hello");
                                      ("account", Json.JString alice)]) |}.

(** The transfer with an empty amount ([amount=]), with an amount of white
    space only ([amount=%20%09], a space and a tab), and with the amount
    [8.2]. *)
Definition empty_amount_request : Http.Request :=
  post ("?receiver=" ++ bob ++ "&amount=") alice.

Definition blank_amount_request : Http.Request :=
  post ("?receiver=" ++ bob ++ "&amount=%20%09") alice.

Definition blank : string := String " "%char (String (ascii_of_nat 9) "").

Definition fractional_amount_request : Http.Request :=
  post ("?receiver=" ++ bob ++ "&amount=8.2") alice.

(** A request without the [receiver] parameter. *)
Definition missing_receiver_request : Http.Request :=
  post "?amount=1.5" alice.

Definition bob_key : Z :=
  3106054211088883198575105191760876350940303353676611666299516346430146937001%Z.

Definition alice_key : Z :=
  2988679396378646993494765771507681406623014513651778753134412041978399162369%Z.

End Reference.

(* ===================================================================== *)
(** * The four variants side by side *)
(* ===================================================================== *)

Inductive variant : Type :=
| route_ts
| route_tsx_static
| route_tsx
| route_helper.

(** The variants that answer [400] from [if (!receiver || !amount)]. *)
Definition inline_guard (v : variant) : bool :=
  match v with
  | route_tsx_static | route_tsx => true
  | route_ts | route_helper => false
  end.

(** The variant whose validation is the separate function
    [verifyTransferInstruction]. *)
Definition separated_validation (v : variant) : bool :=
  match v with
  | route_helper => true
  | _ => false
  end.


Section Variants.
Context `{W : Web3}.

Definition metadata_of (v : variant) : Http.Request -> ActionGetResponse.t :=
  match v with
  | route_ts => RouteTs.metadata
  | route_tsx_static => RouteTsxStatic.metadata
  | route_tsx => RouteTsx.metadata
  | route_helper => RouteHelper.metadata
  end.

Definition GET_of (v : variant) : Http.Request -> M Http.Response :=
  match v with
  | route_ts => RouteTs.GET
  | route_tsx_static => RouteTsxStatic.GET
  | route_tsx => RouteTsx.GET
  | route_helper => RouteHelper.GET
  end.

Definition POST_of (v : variant) : Connection -> Http.Request -> M Http.Response :=
  match v with
  | route_ts => RouteTs.POST
  | route_tsx_static => RouteTsxStatic.POST
  | route_tsx => RouteTsx.POST
  | route_helper => RouteHelper.POST
  end.

Definition prepareTransaction_of (v : variant) :
    Connection -> PublicKey -> PublicKey -> JS.number -> M VersionedTransaction :=
  match v with
  | route_ts => RouteTs.prepareTransaction
  | route_tsx_static => RouteTsxStatic.prepareTransaction
  | route_tsx => RouteTsx.prepareTransaction
  | route_helper => RouteHelper.prepareTransaction
  end.


(** The receiver as the route hands it to [new PublicKey]. *)
Definition receiver_value (req : Http.Request) : Json.jsval :=
  Json.of_nullable (Url.get (Http.url req) "receiver").

(** The amount as the inline routes compute it. *)
Definition amount_of (req : Http.Request) : JS.number :=
  JS.Number (Url.get (Http.url req) "amount").

(** [request.account] of the parsed body, when both reads succeed. *)
Definition account_of (req : Http.Request) : option Json.jsval :=
  match Http.json req with
  | Some request => Json.get_property request "account"
  | None => None
  end.

(** The icon of the answer. *)
Definition icon_of (v : variant) (req : Http.Request) : string :=
  ActionGetResponse.icon (metadata_of v req).


(** The route passed validation and entered [prepareTransaction] with the
    keys it constructed and the amount of the query: its calls are the two
    key constructions, then those of [prepareTransaction], then the
    serialisation when a transaction came back. *)
Definition enters_construction
    (v : variant) (connection : Connection) (req : Http.Request)
    (receiver : PublicKey) (account : Json.jsval) (payer : PublicKey) : Prop :=
  let construction :=
    prepareTransaction_of v connection payer receiver (amount_of req) in
  exists rest,
    trace (POST_of v connection req) =
    NewPublicKey (FromValue (receiver_value req))
    :: NewPublicKey (FromValue account)
    :: (trace construction ++ rest)%list
    /\ match outcome construction with
       | inr transaction => rest = [Serialize transaction]
       | inl _ => rest = []
       end.

(** The presence checks of [verifyTransferInstruction]. *)
Definition helper_presence (req : Http.Request) (account : Json.jsval) : Prop :=
  Json.truthy (receiver_value req) = true
  /\ Json.truthy (Json.of_nullable (Url.get (Http.url req) "amount")) = true
  /\ Json.truthy account = true.

(** Both keys of the request are constructed. *)
Definition keys_of (req : Http.Request)
    (receiver : PublicKey) (account : Json.jsval) (payer : PublicKey) : Prop :=
  new_PublicKey (FromValue (receiver_value req)) = Some receiver
  /\ account_of req = Some account
  /\ new_PublicKey (FromValue account) = Some payer.

(** The answer of the guard [if (!receiver || !amount)]. *)
Definition empty_400 : Http.Response :=
  Http.new_Response None 400 createActionHeaders.

(** The spec's statement that no numeric amount is rejected, at one
    request. *)
Definition numeric_amount_accepted
    (v : variant) (connection : Connection) (req : Http.Request) : Prop :=
  forall receiver account payer,
    keys_of req receiver account payer ->
    (exists s, Url.get (Http.url req) "amount" = Some s
               /\ JS.is_nan (JS.StringToNumber s) = false) ->
    enters_construction v connection req receiver account payer.

(** The shape of a failure answer: the catch-all 500, or an empty 400 in
    the variants selected by [with_400]. *)
Definition failure_shape (with_400 : variant -> bool) (v : variant)
    (r : Http.Response) : Prop :=
  (Http.status r = 500%nat
   /\ Http.body r = Some (Json.stringify internal_server_error))
  \/ (Http.status r = 400%nat /\ Http.body r = None /\ with_400 v = true).

(** The spec's statement that a failure answer is the 500 or, in the variant with the
    separate validation function only, an empty 400; at one request. *)
Definition failure_responses_claimed
    (v : variant) (connection : Connection) (req : Http.Request) : Prop :=
  forall r,
    outcome (POST_of v connection req) = inr r ->
    Http.status r <> 200%nat ->
    failure_shape separated_validation v r.

(** The validation of variant [v] lets the request through, with these
    keys. *)
Definition validated (v : variant) (req : Http.Request)
    (receiver : PublicKey) (account : Json.jsval) (payer : PublicKey) : Prop :=
  keys_of req receiver account payer
  /\ (inline_guard v = true -> JS.number_truthy (amount_of req) = true)
  /\ (separated_validation v = true -> helper_presence req account).

(** Every SDK call of the construction succeeds, down to the bytes of the
    serialised transaction. *)
Definition built (connection : Connection) (payer receiver : PublicKey)
    (amount : JS.number) (bytes : list byte) : Prop :=
  exists toPubkey instruction blockhash message transaction,
    new_PublicKey (FromKey receiver) = Some toPubkey
    /\ SystemProgram_transfer
         {| fromPubkey := payer; toPubkey := toPubkey;
            lamports := JS.mul amount LAMPORTS_PER_SOL |} = Some instruction
    /\ getLatestBlockhash connection = Some blockhash
    /\ compileToV0Message
         {| payerKey := payer; recentBlockhash := blockhash;
            instructions := [instruction] |} = Some message
    /\ new_VersionedTransaction message = Some transaction
    /\ serialize transaction = Some bytes.

(** The answer [{ type: "transaction", transaction: <base64> }], status 200. *)
Definition transaction_response (bytes : list byte) : Http.Response :=
  Http.Response_json
    (ActionPostResponse.to_doc
       {| ActionPostResponse.type := "transaction";
          ActionPostResponse.transaction := Base64.encode bytes |})
    200 createActionHeaders.

(** The catch-all answer, status 500. *)
Definition error_500 : Http.Response :=
  Http.new_Response (Some (Json.stringify internal_server_error)) 500
                    createActionHeaders.

(** The names of the inputs [GET] declares for its action. *)
Definition declared_parameters (v : variant) (req : Http.Request) : list string :=
  flat_map (fun a => map ActionParameter.name (LinkedAction.parameters a))
           (ActionGetResponse.actions
              (ActionGetResponse.links (metadata_of v req))).

(** The messages of the errors [verifyTransferInstruction] throws itself. *)
Definition presence_messages : list string :=
  ["Receiver address is required"; "Amount is required";
   "Payer account is required"].

Definition status_of (m : M Http.Response) : option nat :=
  match outcome m with
  | inr r => Some (Http.status r)
  | inl _ => None
  end.

Definition is_Transfer (c : call) : bool :=
  match c with Transfer _ => true | _ => false end.

Definition is_GetLatestBlockhash (c : call) : bool :=
  match c with GetLatestBlockhash _ => true | _ => false end.



End Variants.

(* ===================================================================== *)
(** * Properties *)
(* ===================================================================== *)

Ltac run_route :=
  cbv beta delta
    [POST_of GET_of prepareTransaction_of metadata_of
     RouteTs.POST RouteTsxStatic.POST RouteTsx.POST RouteHelper.POST
     RouteTs.GET RouteTsxStatic.GET RouteTsx.GET RouteHelper.GET
     RouteTs.prepareTransaction RouteTsxStatic.prepareTransaction
     RouteTsx.prepareTransaction RouteHelper.prepareTransaction
     RouteHelper.verifyTransferInstruction
     RouteHelper.receiver RouteHelper.amount RouteHelper.payer
     status_of outcome trace account_of amount_of receiver_value
     try_catch bind invoke runtime ret throw object_truthy];
  cbn [fst snd app negb orb].

Ltac split_cases :=
  cbn [fst snd app negb orb];
  repeat match goal with
         | |- context [match ?x with _ => _ end] =>
           lazymatch x with
           | context [match _ with _ => _ end] => fail
           | _ => destruct x eqn:?; cbn [fst snd app negb orb]
           end
         end.

Ltac tidy :=
  repeat match goal with
         | H : negb true || negb _ = _ |- _ => cbn [negb orb] in H
         | H : negb _ = true |- _ => apply negb_true_iff in H
         | H : negb _ = false |- _ => apply negb_false_iff in H
         | H : Some _ = Some _ |- _ => injection H as H; try subst
         | H : inr _ = inr _ |- _ => injection H as H; try subst
         end.

Ltac close_trace :=
  unfold trace, outcome; cbn [fst snd app];
  rewrite ?app_nil_r, <- ?app_assoc; cbn [app];
  first [ eexists; split; reflexivity
        | exists (@nil call); split; [now rewrite app_nil_r|reflexivity] ].

Section Properties.
Context `{W : Web3}.
Variable connection : Connection.

Lemma prepareTransaction_same (v : variant) :
  prepareTransaction_of v = RouteTs.prepareTransaction.
Proof. destruct v; reflexivity. Qed.

Lemma POST_tsx_same : RouteTsx.POST = RouteTsxStatic.POST.
Proof. reflexivity. Qed.

Lemma POST_total (v : variant) (req : Http.Request) :
  exists r, outcome (POST_of v connection req) = inr r.
Proof.
  destruct v; run_route; split_cases; eexists; reflexivity.
Qed.

(** ** The metadata endpoint *)

Lemma GET_returns (v : variant) (req : Http.Request) :
  GET_of v req =
  ([], inr (Http.new_Response
              (Some (Json.stringify (ActionGetResponse.to_doc (metadata_of v req))))
              200 createActionHeaders)).
Proof. destruct v; reflexivity. Qed.

(** C4. For every base URL and in every variant, [GET] answers 200 with a
    document whose [links.actions] is an array of exactly one entry; that
    entry's [parameters] is an array of exactly two entries, named
    [receiver] and [amount] in this order, both with [required: true]. *)
Theorem GET_declares_receiver_and_amount (v : variant) (req : Http.Request) :
  exists d links action p1 p2,
    outcome (GET_of v req) =
      inr (Http.new_Response (Some (Json.stringify d)) 200 createActionHeaders)
    /\ Json.field "links" d = Some links
    /\ Json.field "actions" links = Some (Json.DArray [action])
    /\ Json.field "parameters" action = Some (Json.DArray [p1; p2])
    /\ Json.field "name" p1 = Some (Json.DString "receiver")
    /\ Json.field "required" p1 = Some (Json.DBool true)
    /\ Json.field "name" p2 = Some (Json.DString "amount")
    /\ Json.field "required" p2 = Some (Json.DBool true).
Proof.
  rewrite GET_returns.
  exists (ActionGetResponse.to_doc (metadata_of v req)).
  destruct v; cbn; do 4 eexists; repeat split; reflexivity.
Qed.

Lemma icon_in_document (v : variant) (req : Http.Request) :
  Json.field "icon" (ActionGetResponse.to_doc (metadata_of v req)) =
  Some (Json.DString (icon_of v req)).
Proof. reflexivity. Qed.





(** ** The transaction-build endpoint: answers *)

Lemma number_truthy_false (x : JS.number) :
  JS.number_truthy x = false <-> JS.is_zero x = true \/ JS.is_nan x = true.
Proof. destruct x; cbn; intuition congruence. Qed.

Lemma mul_nan (x y : JS.number) : JS.is_nan x = true -> JS.mul x y = JS.NaN.
Proof. destruct x; try discriminate. reflexivity. Qed.

Lemma POST_answers (v : variant) (req : Http.Request) :
  exists r, outcome (POST_of v connection req) = inr r
    /\ (Http.status r = 200%nat \/ failure_shape inline_guard v r).
Proof.
  unfold failure_shape.
  destruct v; run_route; split_cases; eexists; (split; [reflexivity|]);
    cbn; auto.
Qed.

Lemma POST_400_iff (v : variant) (req : Http.Request) :
  status_of (POST_of v connection req) = Some 400%nat <->
  inline_guard v = true
  /\ (exists receiver account payer, keys_of req receiver account payer)
  /\ JS.number_truthy (amount_of req) = false.
Proof.
  unfold keys_of. split.
  - destruct v; run_route; split_cases; cbn; intro H; try discriminate H;
      tidy; (split; [reflexivity|split; [eauto 6|assumption]]).
  - intros (Hv & (r & a & p & Hr & Ha & Hp) & Hamt).
    destruct v; try discriminate Hv; revert Hr Ha Hp Hamt; run_route;
      intros Hr Ha Hp Hamt; rewrite Hr; cbn [fst snd app negb orb];
      destruct (Http.json req) as [body|]; try discriminate Ha;
      rewrite Ha; cbn [fst snd app negb orb]; rewrite Hp, Hamt; reflexivity.
Qed.

Lemma POST_receiver_refused (v : variant) (req : Http.Request) :
  new_PublicKey (FromValue (receiver_value req)) = None ->
  status_of (POST_of v connection req) = Some 500%nat.
Proof.
  destruct v; run_route; intro Hr; rewrite ?Hr; split_cases; try reflexivity;
    congruence.
Qed.

Lemma POST_200_transfer (v : variant) (req : Http.Request) :
  status_of (POST_of v connection req) = Some 200%nat ->
  (exists params instruction,
     SystemProgram_transfer params = Some instruction
     /\ lamports params = JS.mul (amount_of req) LAMPORTS_PER_SOL)
  /\ (inline_guard v = true -> JS.number_truthy (amount_of req) = true).
Proof.
  destruct v; run_route; split_cases; cbn; intro H; try discriminate H; tidy;
    (split; [do 2 eexists; split; [eassumption|reflexivity]
            | try discriminate; auto]).
Qed.

(** C6, as amended. [POST] always answers, and every answer other than the
    200 is either the status 500 with the JSON body
    [{ error: "Internal server error" }] or an empty-body status 400.  The
    400 is given exactly by the two [route.tsx] variants, whose validation is
    the inline guard, when both keys are constructed and the amount converts
    to [0] or [NaN]; [route.ts] and the variant with the separate validation
    function never answer 400. *)
Theorem POST_failure_responses (v : variant) (req : Http.Request) :
  exists r,
    outcome (POST_of v connection req) = inr r
    /\ (Http.status r = 200%nat \/ failure_shape inline_guard v r)
    /\ (Http.status r = 400%nat <->
        inline_guard v = true
        /\ (exists receiver account payer, keys_of req receiver account payer)
        /\ (JS.is_zero (amount_of req) = true \/ JS.is_nan (amount_of req) = true)).
Proof.
  destruct (POST_answers v req) as (r & Hr & Hshape).
  exists r. split; [exact Hr|]. split; [exact Hshape|].
  rewrite <- number_truthy_false, <- POST_400_iff.
  unfold status_of. rewrite Hr. split; congruence.
Qed.

(** C9. In the two variants with the inline guard the disjunct [!receiver]
    is false for every key object, so the empty-body 400 is the answer
    exactly when the receiver key, the body with its [account], and the
    payer key are all obtained and the amount is [0] or [NaN].  A receiver
    the key constructor refuses gives the 500, and so does a missing
    receiver, [null] being refused by the constructor. *)
Theorem inline_guard_400
    (null_refused : new_PublicKey (FromValue (Json.Val Json.JNull)) = None)
    (v : variant) (req : Http.Request) :
  inline_guard v = true ->
  (forall receiver : PublicKey, negb (object_truthy receiver) = false)
  /\ (outcome (POST_of v connection req) = inr empty_400 <->
      (exists receiver account payer, keys_of req receiver account payer)
      /\ (JS.is_zero (amount_of req) = true \/ JS.is_nan (amount_of req) = true))
  /\ (new_PublicKey (FromValue (receiver_value req)) = None ->
      status_of (POST_of v connection req) = Some 500%nat)
  /\ (Url.get (Http.url req) "receiver" = None ->
      status_of (POST_of v connection req) = Some 500%nat).
Proof.
  intro Hv. split; [reflexivity|]. split; [|split].
  - rewrite <- number_truthy_false.
    pose proof (POST_400_iff v req) as H400. rewrite Hv in H400.
    split.
    + intro H. apply proj1 in H400.
      unfold status_of in H400. rewrite H in H400.
      destruct (H400 eq_refl) as (_ & Hk & Ha). auto.
    + intros [Hk Ha]. apply proj2 in H400. specialize (H400 (conj eq_refl (conj Hk Ha))).
      revert H400. destruct v; try discriminate Hv;
        run_route; split_cases; cbn; intro H; try discriminate H; reflexivity.
  - apply POST_receiver_refused.
  - intro Hmissing. apply POST_receiver_refused.
    unfold receiver_value. rewrite Hmissing. exact null_refused.
Qed.

(** An amount string that converts to [NaN], as [abc] does, is not answered
    with a 200 in any variant, once [SystemProgram.transfer] refuses [NaN]
    lamports: the two [route.tsx] variants stop at their guard; [route.ts]
    and the helper variant hand [NaN * LAMPORTS_PER_SOL], that is [NaN], to
    the SDK.  Strings that convert to [0], the empty one among them, are
    another matter. *)
Theorem non_numeric_amount_not_200
    (transfer_refuses_nan :
       forall params, JS.is_nan (lamports params) = true ->
                      SystemProgram_transfer params = None)
    (v : variant) (req : Http.Request) (s : string) :
  Url.get (Http.url req) "amount" = Some s ->
  JS.is_nan (JS.StringToNumber s) = true ->
  status_of (POST_of v connection req) <> Some 200%nat.
Proof.
  intros Hs Hnan H200.
  destruct (POST_200_transfer v req H200) as ((params & i & Hi & Hl) & _).
  rewrite transfer_refuses_nan in Hi; [discriminate|].
  rewrite Hl. unfold amount_of. rewrite Hs. cbn [JS.Number].
  now rewrite (mul_nan _ _ Hnan).
Qed.

(** The guard alone already stops such a request in [route.tsx]. *)
Lemma non_numeric_amount_inline_guard (v : variant) (req : Http.Request) :
  inline_guard v = true ->
  JS.is_nan (amount_of req) = true ->
  status_of (POST_of v connection req) <> Some 200%nat.
Proof.
  intros Hv Hnan H200.
  destruct (POST_200_transfer v req H200) as (_ & Hg).
  specialize (Hg Hv). destruct (amount_of req); discriminate.
Qed.

(** ** The transaction-build endpoint: construction *)

Lemma POST_enters_construction
    (v : variant) (req : Http.Request)
    (receiver : PublicKey) (account : Json.jsval) (payer : PublicKey) :
  keys_of req receiver account payer ->
  (inline_guard v = true -> JS.number_truthy (amount_of req) = true) ->
  (separated_validation v = true -> helper_presence req account) ->
  enters_construction v connection req receiver account payer.
Proof.
  intros (Hr & Ha & Hp) Hg Hh. unfold enters_construction.
  rewrite prepareTransaction_same.
  set (prep := RouteTs.prepareTransaction connection payer receiver (amount_of req)).
  unfold account_of in Ha.
  destruct (Http.json req) as [body|] eqn:Hbody; try discriminate Ha.
  destruct v; cbn [inline_guard separated_validation] in Hg, Hh.
  - unfold POST_of, RouteTs.POST, receiver_value in *.
    cbv beta delta [try_catch bind invoke runtime ret throw].
    rewrite Hr, Hbody, Ha, Hp. cbn [fst snd app].
    change (RouteTs.prepareTransaction connection payer receiver
              (JS.Number (Url.get (Http.url req) "amount"))) with prep.
    destruct prep as [t [e|tx]]; cbn [fst snd app].
    + close_trace.
    + destruct (serialize tx); close_trace.
  - specialize (Hg eq_refl). unfold amount_of in Hg.
    unfold POST_of, RouteTsxStatic.POST, receiver_value in *.
    cbv beta delta [try_catch bind invoke runtime ret throw object_truthy].
    rewrite Hr, Hbody, Ha, Hp, Hg. cbn [fst snd app negb orb].
    change (RouteTsxStatic.prepareTransaction connection payer receiver
              (JS.Number (Url.get (Http.url req) "amount"))) with prep.
    destruct prep as [t [e|tx]]; cbn [fst snd app].
    + close_trace.
    + destruct (serialize tx); close_trace.
  - specialize (Hg eq_refl). unfold amount_of in Hg.
    unfold POST_of, RouteTsx.POST, receiver_value in *.
    cbv beta delta [try_catch bind invoke runtime ret throw object_truthy].
    rewrite Hr, Hbody, Ha, Hp, Hg. cbn [fst snd app negb orb].
    change (RouteTsx.prepareTransaction connection payer receiver
              (JS.Number (Url.get (Http.url req) "amount"))) with prep.
    destruct prep as [t [e|tx]]; cbn [fst snd app].
    + close_trace.
    + destruct (serialize tx); close_trace.
  - destruct (Hh eq_refl) as (Htr & Hta & Htc).
    unfold POST_of, RouteHelper.POST, RouteHelper.verifyTransferInstruction,
      receiver_value in *.
    cbv beta delta [try_catch bind invoke runtime ret throw
                    RouteHelper.receiver RouteHelper.amount RouteHelper.payer].
    rewrite Hbody, Htr, Hta. cbn [fst snd app negb].
    rewrite Ha, Htc. cbn [fst snd app negb]. rewrite Hr, Hp.
    cbn [fst snd app negb].
    change (RouteHelper.prepareTransaction connection payer receiver
              (JS.Number (Url.get (Http.url req) "amount"))) with prep.
    destruct prep as [t [e|tx]]; cbn [fst snd app].
    + close_trace.
    + destruct (serialize tx); close_trace.
Qed.

Lemma POST_guard_rejects
    (v : variant) (req : Http.Request)
    (receiver : PublicKey) (account : Json.jsval) (payer : PublicKey) :
  inline_guard v = true ->
  keys_of req receiver account payer ->
  JS.number_truthy (amount_of req) = false ->
  POST_of v connection req =
  ([NewPublicKey (FromValue (receiver_value req));
    NewPublicKey (FromValue account)], inr empty_400).
Proof.
  intros Hv (Hr & Ha & Hp) Hamt. unfold account_of in Ha.
  destruct (Http.json req) as [body|] eqn:Hbody; try discriminate Ha.
  destruct v; try discriminate Hv; revert Hr Hp Hamt; run_route;
    intros Hr Hp Hamt; rewrite Hr, Hbody; cbn [fst snd app negb orb];
    rewrite Ha; cbn [fst snd app negb orb]; rewrite Hp, Hamt; reflexivity.
Qed.

Lemma negative_or_infinite_truthy (x : JS.number) :
  JS.is_negative x = true \/ JS.is_infinite x = true ->
  JS.number_truthy x = true.
Proof. destruct x as [| | |[|] ? ?]; cbn; intuition congruence. Qed.

(** C1, as amended. For a request whose receiver and payer keys are
    constructed and whose amount string converts to a number, no variant
    rejects the amount for being negative or infinite, and [route.ts] and the
    helper variant (given the non-empty strings its presence checks ask for)
    do not reject a zero either: the route enters [prepareTransaction] with
    that amount.  The two [route.tsx] variants do reject a zero amount: their
    guard answers the empty-body 400 before any construction. *)
Theorem numeric_amount_and_validation
    (v : variant) (req : Http.Request)
    (receiver : PublicKey) (account : Json.jsval) (payer : PublicKey) (s : string) :
  keys_of req receiver account payer ->
  Url.get (Http.url req) "amount" = Some s ->
  JS.is_nan (JS.StringToNumber s) = false ->
  (separated_validation v = true -> helper_presence req account) ->
  (inline_guard v = true /\ JS.is_zero (JS.StringToNumber s) = true ->
   POST_of v connection req =
   ([NewPublicKey (FromValue (receiver_value req));
     NewPublicKey (FromValue account)], inr empty_400))
  /\ (inline_guard v = false \/ JS.is_zero (JS.StringToNumber s) = false ->
      enters_construction v connection req receiver account payer)
  /\ (JS.is_negative (JS.StringToNumber s) = true
      \/ JS.is_infinite (JS.StringToNumber s) = true ->
      enters_construction v connection req receiver account payer).
Proof.
  intros Hk Hs Hnum Hh.
  assert (Hamt : amount_of req = JS.StringToNumber s)
    by (unfold amount_of; now rewrite Hs).
  split; [|split].
  - intros [Hv Hz]. apply (POST_guard_rejects v req receiver account payer); auto.
    rewrite Hamt. apply number_truthy_false. auto.
  - intros Hcase. apply POST_enters_construction; auto.
    intro Hv. rewrite Hamt. destruct Hcase as [Hcase|Hcase]; [congruence|].
    unfold JS.number_truthy. now rewrite Hnum, Hcase.
  - intro Hsign. apply POST_enters_construction; auto.
    intros _. rewrite Hamt. now apply negative_or_infinite_truthy.
Qed.


Lemma prepareTransaction_starts
    (payer receiver : PublicKey) (amount : JS.number) :
  exists t,
    trace (RouteTs.prepareTransaction connection payer receiver amount) =
    NewPublicKey (FromKey receiver) :: t.
Proof. run_route; split_cases; eexists; reflexivity. Qed.



Lemma prepareTransaction_transfer
    (key_of_key : forall k, new_PublicKey (FromKey k) = Some k)
    (payer receiver : PublicKey) (amount : JS.number) :
  let run := RouteTs.prepareTransaction connection payer receiver amount in
  let params := {| fromPubkey := payer; toPubkey := receiver;
                   lamports := JS.mul amount (JS.of_Z 1000000000) |} in
  filter is_Transfer (trace run) = [Transfer params]
  /\ (forall args, In (CompileToV0Message args) (trace run) ->
       payerKey args = payer
       /\ exists instruction,
            SystemProgram_transfer params = Some instruction
            /\ instructions args = [instruction]).
Proof.
  run_route. rewrite key_of_key. fold LAMPORTS_PER_SOL.
  split_cases; (split; [reflexivity|]); cbn [In]; intros args Hin;
    repeat match goal with
           | H : _ \/ _ |- _ => destruct H as [H|H]; try discriminate H
           | H : False |- _ => destruct H
           | H : CompileToV0Message _ = CompileToV0Message _ |- _ =>
             injection H as H; subst args
           end;
    (split; [reflexivity|eexists; split; reflexivity]).
Qed.

(** What the route asks of the SDK for a validated request (both keys
    constructed, the guard or the presence checks of the variant passed):
    exactly one call of [SystemProgram.transfer], from the payer, to the
    receiver, with the binary64 product [amount * LAMPORTS_PER_SOL] as
    [lamports]; and the message that is compiled names the payer as fee
    payer and holds the one instruction that call returned.  Whether the
    product is the amount times 10^9 is another matter. *)
Theorem transfer_moves_scaled_amount
    (key_of_key : forall k, new_PublicKey (FromKey k) = Some k)
    (v : variant) (req : Http.Request)
    (receiver : PublicKey) (account : Json.jsval) (payer : PublicKey) :
  keys_of req receiver account payer ->
  (inline_guard v = true -> JS.number_truthy (amount_of req) = true) ->
  (separated_validation v = true -> helper_presence req account) ->
  let params := {| fromPubkey := payer; toPubkey := receiver;
                   lamports := JS.mul (amount_of req) (JS.of_Z 1000000000) |} in
  filter is_Transfer (trace (POST_of v connection req)) = [Transfer params]
  /\ (forall args,
       In (CompileToV0Message args) (trace (POST_of v connection req)) ->
       payerKey args = payer
       /\ exists instruction,
            SystemProgram_transfer params = Some instruction
            /\ instructions args = [instruction]).
Proof.
  intros Hk Hg Hh params.
  destruct (POST_enters_construction v req receiver account payer Hk Hg Hh)
    as (rest & Ht & Hrest).
  rewrite prepareTransaction_same in Ht, Hrest.
  destruct (prepareTransaction_transfer key_of_key payer receiver (amount_of req))
    as (Hf & Hc).
  assert (Hnone : filter is_Transfer rest = [] /\ forall args, ~ In (CompileToV0Message args) rest).
  { destruct (outcome _); subst rest; split; cbn; try reflexivity; intuition discriminate. }
  destruct Hnone as (Hrf & Hrc).
  rewrite Ht. split.
  - cbn [filter is_Transfer]. rewrite filter_app, Hf, Hrf. reflexivity.
  - intros args [H|[H|H]]; try discriminate H.
    apply in_app_or in H as [H|H]; [now apply Hc|now apply Hrc in H].
Qed.

Lemma truthy_nullable (x : option string) :
  Json.truthy (Json.of_nullable x) = true <-> exists s, x = Some s /\ s <> "".
Proof.
  destruct x as [s|]; cbn.
  - rewrite negb_true_iff, String.eqb_neq. split.
    + intro H. now exists s.
    + intros (s' & Hs & Hne). now injection Hs as ->.
  - split; [discriminate|]. intros (s & Hs & _). discriminate.
Qed.

Lemma verifyTransferInstruction_resolves
    (req : Http.Request) (p : RouteHelper.TransferInstructionParams) :
  outcome (RouteHelper.verifyTransferInstruction req) = inr p <->
  exists body receiverString amountString account,
    Http.json req = Some body
    /\ Url.get (Http.url req) "receiver" = Some receiverString
    /\ receiverString <> ""
    /\ Url.get (Http.url req) "amount" = Some amountString
    /\ amountString <> ""
    /\ Json.get_property body "account" = Some account
    /\ Json.truthy account = true
    /\ new_PublicKey (FromValue (Json.Val (Json.JString receiverString))) =
       Some (RouteHelper.receiver p)
    /\ new_PublicKey (FromValue account) = Some (RouteHelper.payer p)
    /\ RouteHelper.amount p = JS.StringToNumber amountString.
Proof.
  split.
  - unfold RouteHelper.verifyTransferInstruction.
    cbv beta delta [outcome try_catch bind invoke runtime ret throw].
    destruct (Http.json req) as [body|]; cbn [fst snd app]; [|discriminate].
    destruct (Json.truthy (Json.of_nullable (Url.get (Http.url req) "receiver")))
      eqn:Hr; cbn [fst snd app negb]; [|discriminate].
    destruct (Json.truthy (Json.of_nullable (Url.get (Http.url req) "amount")))
      eqn:Ha; cbn [fst snd app negb]; [|discriminate].
    apply truthy_nullable in Hr as (rs & Hrs & Hrne).
    apply truthy_nullable in Ha as (az & Has & Hane).
    rewrite Hrs, Has. cbn [Json.of_nullable JS.Number].
    destruct (Json.get_property body "account") as [account|] eqn:Hacc;
      cbn [fst snd app]; [|discriminate].
    destruct (Json.truthy account) eqn:Htr; cbn [fst snd app negb]; [|discriminate].
    destruct (new_PublicKey (FromValue (Json.Val (Json.JString rs)))) as [r|] eqn:Hkr;
      cbn [fst snd app]; [|discriminate].
    destruct (new_PublicKey (FromValue account)) as [k|] eqn:Hkp;
      cbn [fst snd app]; [|discriminate].
    intro H. injection H as <-. cbn.
    exists body, rs, az, account. repeat split; auto.
  - intros (body & rs & az & account & Hb & Hrs & Hrne & Has & Hane & Hacc & Htr
            & Hkr & Hkp & Hamt).
    unfold RouteHelper.verifyTransferInstruction.
    cbv beta delta [outcome try_catch bind invoke runtime ret throw].
    rewrite Hb, Hrs, Has. cbn [fst snd app Json.of_nullable Json.truthy JS.Number].
    apply String.eqb_neq in Hrne, Hane. rewrite Hrne, Hane.
    cbn [fst snd app negb]. rewrite Hacc. cbn [fst snd app]. rewrite Htr.
    cbn [fst snd app negb]. rewrite Hkr, Hkp. cbn [fst snd app].
    destruct p as [r a k]. cbn in *. now subst.
Qed.

Lemma POST_after_verification
    (req : Http.Request) (p : RouteHelper.TransferInstructionParams) :
  outcome (RouteHelper.verifyTransferInstruction req) = inr p ->
  exists rest,
    trace (RouteHelper.POST connection req) =
    (trace (RouteHelper.verifyTransferInstruction req)
     ++ trace (RouteHelper.prepareTransaction connection
                 (RouteHelper.payer p) (RouteHelper.receiver p)
                 (RouteHelper.amount p))
     ++ rest)%list.
Proof.
  unfold RouteHelper.POST.
  destruct (RouteHelper.verifyTransferInstruction req) as [t [e|q]];
    cbn [outcome snd]; intro H; [discriminate|]. injection H as ->.
  cbv beta delta [try_catch bind trace invoke ret]. cbn [fst snd].
  destruct (RouteHelper.prepareTransaction connection _ _ _) as [t' [e|tx]];
    cbn [fst snd app].
  - exists []. now rewrite !app_nil_r.
  - destruct (serialize tx); cbn [fst snd app]; rewrite ?app_nil_r, <- ?app_assoc;
      eexists; reflexivity.
Qed.

(** C10. [verifyTransferInstruction] resolves exactly when the body is
    read, the receiver string, the amount string and the [account] field are
    non-empty, and both keys are constructed: the amount is only tested for
    presence.  It then resolves with [amount = Number(amountString)], which
    is [NaN] for a string such as [abc], and [POST] hands that value to
    [prepareTransaction]. *)
Theorem verifyTransferInstruction_checks_presence_only (req : Http.Request) :
  (forall p,
     outcome (RouteHelper.verifyTransferInstruction req) = inr p <->
     exists body receiverString amountString account,
       Http.json req = Some body
       /\ Url.get (Http.url req) "receiver" = Some receiverString
       /\ receiverString <> ""
       /\ Url.get (Http.url req) "amount" = Some amountString
       /\ amountString <> ""
       /\ Json.get_property body "account" = Some account
       /\ Json.truthy account = true
       /\ new_PublicKey (FromValue (Json.Val (Json.JString receiverString))) =
          Some (RouteHelper.receiver p)
       /\ new_PublicKey (FromValue account) = Some (RouteHelper.payer p)
       /\ RouteHelper.amount p = JS.StringToNumber amountString)
  /\ (forall p,
       outcome (RouteHelper.verifyTransferInstruction req) = inr p ->
       exists rest,
         trace (RouteHelper.POST connection req) =
         (trace (RouteHelper.verifyTransferInstruction req)
          ++ trace (RouteHelper.prepareTransaction connection
                      (RouteHelper.payer p) (RouteHelper.receiver p)
                      (RouteHelper.amount p))
          ++ rest)%list)
  /\ JS.StringToNumber "abc" = JS.NaN.
Proof.
  split; [|split].
  - intro p. apply verifyTransferInstruction_resolves.
  - intro p. apply POST_after_verification.
  - reflexivity.
Qed.

(** A missing amount is refused by the guard of [route.tsx] and by the
    presence check of the helper. *)
Lemma missing_amount_refused_elsewhere (v : variant) (req : Http.Request) :
  v <> route_ts ->
  Url.get (Http.url req) "amount" = None ->
  status_of (POST_of v connection req) <> Some 200%nat.
Proof.
  intros Hv Hnone H200.
  destruct v; try congruence.
  - destruct (POST_200_transfer _ _ H200) as (_ & Hg).
    specialize (Hg eq_refl). unfold amount_of in Hg. rewrite Hnone in Hg.
    discriminate Hg.
  - destruct (POST_200_transfer _ _ H200) as (_ & Hg).
    specialize (Hg eq_refl). unfold amount_of in Hg. rewrite Hnone in Hg.
    discriminate Hg.
  - revert H200. run_route. rewrite Hnone. split_cases; discriminate.
Qed.

End Properties.

(* ===================================================================== *)
(** * Further properties of the routes *)
(* ===================================================================== *)

Ltac use_validation :=
  unfold validated, keys_of, helper_presence, built, account_of, amount_of,
    receiver_value in *.

Ltac break_in :=
  repeat match goal with
         | H : In _ (_ :: _) |- _ => cbn [In] in H
         | H : In _ [] |- _ => destruct H
         | H : _ \/ _ |- _ => destruct H as [H|H]
         | H : False |- _ => destruct H
         | H : ?a = ?b |- _ =>
           first [ discriminate H
                 | match a with
                   | GetLatestBlockhash _ => injection H as H; try subst
                   end ]
         end.

Ltac run_helper :=
  unfold RouteHelper.POST, RouteHelper.verifyTransferInstruction;
  cbv beta delta [try_catch bind invoke runtime ret throw outcome trace];
  cbn [fst snd app negb orb].

Section FurtherProperties.
Context `{W : Web3}.
Variable connection : Connection.


Lemma POST_builds
    (v : variant) (req : Http.Request)
    (receiver : PublicKey) (account : Json.jsval) (payer : PublicKey)
    (bytes : list byte) :
  validated v req receiver account payer ->
  built connection payer receiver (amount_of req) bytes ->
  outcome (POST_of v connection req) = inr (transaction_response bytes).
Proof.
  intros ((Hr & Ha & Hp) & Hg & Hh)
         (k & i & b & m & tx & Hk & Hi & Hb & Hm & Htx & Hbytes).
  unfold account_of in Ha.
  destruct (Http.json req) as [body|] eqn:Hbody; try discriminate Ha.
  unfold helper_presence in Hh.
  destruct v; cbn [inline_guard separated_validation] in Hg, Hh;
    try specialize (Hg eq_refl); try (destruct (Hh eq_refl) as (Htr & Hta & Htc));
    unfold amount_of, receiver_value in *;
    run_route;
    repeat (progress (rewrite ?Hbody, ?Htr, ?Hta, ?Ha, ?Htc, ?Hr, ?Hp, ?Hg, ?Hk,
                        ?Hi, ?Hb, ?Hm, ?Htx, ?Hbytes;
                      cbn [fst snd app negb orb]));
    reflexivity.
Qed.

Lemma POST_200_built (v : variant) (req : Http.Request) :
  status_of (POST_of v connection req) = Some 200%nat ->
  exists receiver account payer bytes,
    validated v req receiver account payer
    /\ built connection payer receiver (amount_of req) bytes.
Proof.
  use_validation.
  destruct v; run_route; split_cases; cbn; intro H; try discriminate H; tidy;
    do 4 eexists; (split; [split; [repeat split; eauto|split; intro Hx; try discriminate Hx; auto]|]);
    do 5 eexists; repeat split; eauto.
Qed.

(** X3. A request costs at most one round trip to the ledger, on the
    route's own connection, and none unless the request passed the
    validation of its variant and [SystemProgram.transfer] returned an
    instruction for [amount * LAMPORTS_PER_SOL]: a request that is refused,
    or whose instruction cannot be built, never reaches the network. *)
Theorem ledger_asked_only_for_built_instruction
    (v : variant) (req : Http.Request) :
  (List.length (filter is_GetLatestBlockhash (trace (POST_of v connection req))) <= 1)%nat
  /\ forall c,
       In (GetLatestBlockhash c) (trace (POST_of v connection req)) ->
       c = connection
       /\ exists receiver account payer toPubkey instruction,
            validated v req receiver account payer
            /\ new_PublicKey (FromKey receiver) = Some toPubkey
            /\ SystemProgram_transfer
                 {| fromPubkey := payer; toPubkey := toPubkey;
                    lamports := JS.mul (amount_of req) LAMPORTS_PER_SOL |} =
               Some instruction.
Proof.
  use_validation.
  destruct v; run_route; split_cases; (split; [cbn; lia|]); intros c Hin;
    break_in; tidy; (split; [reflexivity|]);
    do 5 eexists;
    (split; [split; [repeat split; eauto
                    |split; intro Hx; try discriminate Hx; auto]
            |split; eauto]).
Qed.

(** X4. The presence checks of [verifyTransferInstruction] run in a fixed
    order after the body is read, and the first that fails decides the
    rejection: an unreadable body, then [Receiver address is required], then
    [Amount is required], then the [account] read and
    [Payer account is required].  None of these rejections is preceded by an
    SDK call. *)
Theorem verifyTransferInstruction_presence_order (req : Http.Request) :
  (Http.json req = None ->
   RouteHelper.verifyTransferInstruction req =
   ([], inl (InvalidTransferInstruction Foreign)))
  /\ (forall body,
        Http.json req = Some body ->
        (Json.truthy (receiver_value req) = false ->
         RouteHelper.verifyTransferInstruction req =
         ([], inl (InvalidTransferInstruction
                     (Error "Receiver address is required"))))
        /\ (Json.truthy (receiver_value req) = true ->
            Json.truthy (Json.of_nullable (Url.get (Http.url req) "amount")) = false ->
            RouteHelper.verifyTransferInstruction req =
            ([], inl (InvalidTransferInstruction (Error "Amount is required"))))
        /\ (Json.truthy (receiver_value req) = true ->
            Json.truthy (Json.of_nullable (Url.get (Http.url req) "amount")) = true ->
            (Json.get_property body "account" = None ->
             RouteHelper.verifyTransferInstruction req =
             ([], inl (InvalidTransferInstruction Foreign)))
            /\ (forall account,
                  Json.get_property body "account" = Some account ->
                  Json.truthy account = false ->
                  RouteHelper.verifyTransferInstruction req =
                  ([], inl (InvalidTransferInstruction
                              (Error "Payer account is required")))))).
Proof.
  unfold receiver_value.
  split; [|intros body Hbody; split; [|split]].
  - intro H. run_helper. now rewrite H.
  - intro Hr. run_helper. now rewrite Hbody, Hr.
  - intros Hr Ha. run_helper. rewrite Hbody, Hr. cbn [fst snd app negb].
    now rewrite Ha.
  - intros Hr Ha. split.
    + intro Hacc. run_helper. rewrite Hbody, Hr. cbn [fst snd app negb].
      rewrite Ha. cbn [fst snd app negb]. now rewrite Hacc.
    + intros account Hacc Ht. run_helper. rewrite Hbody, Hr.
      cbn [fst snd app negb]. rewrite Ha. cbn [fst snd app negb].
      rewrite Hacc. cbn [fst snd app negb]. now rewrite Ht.
Qed.

(** X5. Whatever goes wrong inside [verifyTransferInstruction], the promise
    is rejected with the wrapped reason
    [Invalid transfer instruction: <message>], where the cause is one of its
    own three errors or an exception of the runtime or the SDK; its own
    errors come before any SDK call; and [POST] answers such a rejection with
    the 500, having made no further call. *)
Theorem verifyTransferInstruction_rejections
    (req : Http.Request) (e : exn) :
  outcome (RouteHelper.verifyTransferInstruction req) = inl e ->
  (exists cause,
      e = InvalidTransferInstruction cause
      /\ (cause = Foreign \/ exists m, cause = Error m /\ In m presence_messages))
  /\ ((exists m, e = InvalidTransferInstruction (Error m)) ->
      trace (RouteHelper.verifyTransferInstruction req) = [])
  /\ RouteHelper.POST connection req =
     (trace (RouteHelper.verifyTransferInstruction req), inr error_500).
Proof.
  unfold RouteHelper.POST.
  destruct (RouteHelper.verifyTransferInstruction req) as [t [x|p]] eqn:Hv;
    cbn [outcome trace fst snd]; intro H; [|discriminate H].
  injection H as ->. split; [|split].
  - revert Hv. run_route; split_cases; cbn; intro H; inversion H; subst;
      eexists; (split; [reflexivity|]); cbn; eauto 8.
  - intros (m & ->). revert Hv.
    run_route; split_cases; cbn; intro H; inversion H; subst; reflexivity.
  - cbv beta delta [try_catch bind ret]. cbn [fst snd app].
    now rewrite app_nil_r.
Qed.

(** X6. The guard [if (!receiver || !amount)] is all that separates the two
    [route.tsx] variants from [route.ts]: unless both keys are constructed
    and the amount is [0] or [NaN], they make the same SDK calls and give the
    same answer. *)
Theorem guard_is_the_only_difference (v : variant) (req : Http.Request) :
  inline_guard v = true ->
  (JS.number_truthy (amount_of req) = false ->
   forall receiver account payer, ~ keys_of req receiver account payer) ->
  POST_of v connection req = POST_of route_ts connection req.
Proof.
  intros Hv Hdiff. unfold keys_of, account_of, amount_of, receiver_value in Hdiff.
  destruct v; try discriminate Hv; run_route; split_cases; try reflexivity;
    tidy; exfalso;
    match goal with
    | H : JS.number_truthy _ = false |- _ =>
      eapply (Hdiff H); repeat split; eauto
    end.
Qed.

(** X7. Once the body is read and the receiver string, the amount string and
    the [account] field are non-empty, the variant with
    [verifyTransferInstruction] makes the same SDK calls and gives the same
    answer as [route.ts]. *)
Theorem helper_agrees_once_present
    (req : Http.Request) (body : Json.value) (account : Json.jsval) :
  Http.json req = Some body ->
  Json.get_property body "account" = Some account ->
  helper_presence req account ->
  POST_of route_helper connection req = POST_of route_ts connection req.
Proof.
  intros Hbody Hacc (Htr & Hta & Htc). unfold receiver_value in Htr.
  run_route. rewrite Hbody, Htr. cbn [fst snd app negb orb].
  rewrite Hta. cbn [fst snd app negb orb].
  rewrite Hacc. cbn [fst snd app negb orb].
  rewrite Htc. cbn [fst snd app negb orb].
  split_cases; reflexivity.
Qed.

(** X8. The metadata depends on the request through the scheme and the host
    of its URL only: path, query, fragment and body do not change the
    answer. *)
Theorem GET_depends_on_origin_only (v : variant) (req1 req2 : Http.Request) :
  Url.protocol (Http.url req1) = Url.protocol (Http.url req2) ->
  Url.host (Http.url req1) = Url.host (Http.url req2) ->
  GET_of v req1 = GET_of v req2.
Proof.
  intros Hp Hh. rewrite !GET_returns.
  destruct v; cbn [metadata_of];
    unfold RouteTs.metadata, RouteTsx.metadata, RouteHelper.metadata,
      RouteTsxStatic.metadata, Url.toString, Url.resolve_path;
    cbn [Url.protocol Url.host Url.pathname Url.search Url.hash];
    now rewrite ?Hp, ?Hh.
Qed.

(** X9. A body that is not JSON, or that is the JSON value [null], gives the
    500 in every variant.  The inline variants have by then called the key
    constructor on the receiver, and nothing else; the helper variant has
    made no SDK call. *)
Theorem unusable_body_answers_500 (v : variant) (req : Http.Request) :
  Http.json req = None \/ Http.json req = Some Json.JNull ->
  POST_of v connection req =
  (if separated_validation v then []
   else [NewPublicKey (FromValue (receiver_value req))],
   inr error_500).
Proof.
  intros [H|H]; destruct v; cbn [separated_validation]; run_route;
    rewrite H; cbn [Json.get_property]; split_cases; reflexivity.
Qed.

(** X10. A request without the [receiver] parameter, or whose body has no
    [account] field, gives the 500 in every variant, the key constructor
    refusing [null] and [undefined]. *)
Theorem missing_fields_answer_500
    (null_refused : new_PublicKey (FromValue (Json.Val Json.JNull)) = None)
    (undefined_refused : new_PublicKey (FromValue Json.Undefined) = None)
    (v : variant) (req : Http.Request) :
  Url.get (Http.url req) "receiver" = None
  \/ account_of req = Some Json.Undefined ->
  outcome (POST_of v connection req) = inr error_500.
Proof.
  unfold account_of.
  intros [H|H].
  - destruct v; run_route; rewrite H; cbn [Json.of_nullable Json.truthy];
      rewrite ?null_refused; split_cases; reflexivity.
  - destruct (Http.json req) as [body|] eqn:Hbody; [|discriminate H].
    destruct v; run_route; rewrite ?Hbody; cbn [fst snd app negb orb];
      rewrite ?H; cbn [fst snd app negb orb Json.truthy];
      rewrite ?undefined_refused; split_cases; try reflexivity;
      rewrite ?H in *; cbn in *; congruence.
Qed.

Lemma POST_reads_receiver_amount_account
    (v : variant) (req1 req2 : Http.Request) :
  Url.get (Http.url req1) "receiver" = Url.get (Http.url req2) "receiver" ->
  Url.get (Http.url req1) "amount" = Url.get (Http.url req2) "amount" ->
  account_of req1 = account_of req2 ->
  POST_of v connection req1 = POST_of v connection req2.
Proof.
  unfold account_of. intros Hr Ha Hacc.
  destruct v; run_route; rewrite Hr, Ha;
    destruct (Http.json req1) as [b1|], (Http.json req2) as [b2|];
    cbn [fst snd app negb orb]; rewrite ?Hacc; try rewrite <- ?Hacc;
    split_cases; try reflexivity; try congruence.
Qed.

(** X11. Of the URL, [POST] reads the parameters that [GET] declares and
    nothing else, and of the body the [account] field only: two requests that
    agree on these get the same answer after the same SDK calls. *)
Theorem POST_reads_only_declared_parameters
    (v : variant) (req0 req1 req2 : Http.Request) :
  (forall name, In name (declared_parameters v req0) ->
                Url.get (Http.url req1) name = Url.get (Http.url req2) name) ->
  account_of req1 = account_of req2 ->
  POST_of v connection req1 = POST_of v connection req2.
Proof.
  intros Hparams Hacc.
  apply POST_reads_receiver_amount_account; [| |exact Hacc];
    apply Hparams; destruct v; cbn; auto.
Qed.

(** X2. [POST] answers 200 exactly when the request passes the validation of
    its variant and every SDK call of the construction succeeds; the body is
    then [{ type: "transaction", transaction }] with the base64 text of the
    bytes [serialize] returned. *)
Theorem POST_answers_200_exactly_when_built (v : variant) (req : Http.Request) :
  (status_of (POST_of v connection req) = Some 200%nat <->
   exists receiver account payer bytes,
     validated v req receiver account payer
     /\ built connection payer receiver (amount_of req) bytes)
  /\ (forall receiver account payer bytes,
        validated v req receiver account payer ->
        built connection payer receiver (amount_of req) bytes ->
        outcome (POST_of v connection req) = inr (transaction_response bytes)).
Proof.
  split.
  - split; [apply POST_200_built|].
    intros (r & a & p & bytes & Hv & Hb).
    unfold status_of. now rewrite (POST_builds v req r a p bytes Hv Hb).
  - intros r a p bytes. apply POST_builds.
Qed.

End FurtherProperties.

(* ===================================================================== *)
(** * Runs on concrete requests *)
(* ===================================================================== *)

Section Runs.
Import Reference.

Example Number_samples :
  map JS.StringToNumber ["abc"; ""; " 42 "; "-0"; "1e3"; "0x1F"; "-0x1F"; "12px";
                         "Infinity"; "-Infinity"; "0.1"; "1e400"; "."] =
  [JS.NaN; JS.pos_zero; JS.of_Z 42; S754_zero true; JS.of_Z 1000; JS.of_Z 31;
   JS.NaN; JS.NaN; JS.Infinity; S754_infinity true;
   S754_finite false 7205759403792794 (-56); JS.Infinity; JS.NaN].
Proof. vm_compute. reflexivity. Qed.

Example Number_null : JS.Number None = JS.pos_zero.
Proof. reflexivity. Qed.

Example scaled_amount_sample :
  JS.mul (JS.StringToNumber "1.5") LAMPORTS_PER_SOL = JS.of_Z 1500000000.
Proof. vm_compute. reflexivity. Qed.

Example base64_samples :
  map Base64.encode [[x4d; x61; x6e]; [x4d; x61]; [x4d]; []] =
  ["TWFu"; "TWE="; "TQ=="; ""].
Proof. vm_compute. reflexivity. Qed.

Example searchParams_sample :
  Url.searchParams
    {| Url.protocol := "https:"; Url.host := "blinks.example";
       Url.pathname := "/api/transfer-sol";
       Url.search := "?receiver=abc&amount=1%2E5&x&&amount=2&y=a+b=c";
       Url.hash := "" |} =
  [("receiver", "abc"); ("amount", "1.5"); ("x", ""); ("amount", "2");
   ("y", "a b=c")].
Proof. vm_compute. reflexivity. Qed.

Example stringify_sample :
  Json.stringify (Json.DArray [Json.DBool true; Json.DArray []; Json.DBool false]) =
  "[true,[],false]".
Proof. vm_compute. reflexivity. Qed.

Example internal_server_error_body :
  Json.stringify internal_server_error =
  "{" ++ Json.dquote ++ "error" ++ Json.dquote ++ ":"
      ++ Json.dquote ++ "Internal server error" ++ Json.dquote ++ "}".
Proof. vm_compute. reflexivity. Qed.

Lemma reference_transfer_refuses_nan (params : TransferParams Z) :
  JS.is_nan (lamports params) = true ->
  SystemProgram_transfer params = None.
Proof.
  destruct params as [f t l]. cbn. destruct l; try discriminate. reflexivity.
Qed.

Lemma reference_keys (search : string) :
  Url.get (Http.url (post search alice)) "receiver" = Some bob ->
  keys_of (post search alice) bob_key (Json.Val (Json.JString alice)) alice_key.
Proof.
  intro Hr. unfold keys_of, receiver_value. rewrite Hr.
  repeat split; vm_compute; reflexivity.
Qed.

(** C1, counterexample. The amount [0] parses as a number and both keys are
    valid, yet the second document of [route.tsx] does not enter
    [prepareTransaction]: it answers the empty 400. *)
Lemma route_tsx_rejects_zero_amount :
  ~ numeric_amount_accepted route_tsx devnet zero_amount_request.
Proof.
  intro H.
  destruct (H bob_key (Json.Val (Json.JString alice)) alice_key)
    as (rest & Ht & _).
  - apply reference_keys. vm_compute. reflexivity.
  - exists "0". split; vm_compute; reflexivity.
  - rewrite (POST_guard_rejects (W:=sdk) devnet route_tsx zero_amount_request
               bob_key (Json.Val (Json.JString alice)) alice_key) in Ht.
    + rewrite prepareTransaction_same in Ht.
      destruct (prepareTransaction_starts (W:=sdk) devnet alice_key bob_key
                  (amount_of zero_amount_request)) as (t & Hprep).
      rewrite Hprep in Ht. discriminate Ht.
    + reflexivity.
    + apply reference_keys. vm_compute. reflexivity.
    + vm_compute. reflexivity.
Qed.

(** C2. [route.ts] answers a request without the [amount] parameter with a
    200 and a transaction: [Number(null)] is [0], and a transfer of [0]
    units from the payer to the receiver is built. *)
Theorem route_ts_accepts_missing_amount :
  Url.get (Http.url missing_amount_request) "amount" = None
  /\ status_of (RouteTs.POST devnet missing_amount_request) = Some 200%nat
  /\ filter is_Transfer (trace (RouteTs.POST devnet missing_amount_request)) =
     [Transfer {| fromPubkey := alice_key; toPubkey := bob_key;
                  lamports := JS.pos_zero |}].
Proof.
  split; [vm_compute; reflexivity|]. split; [vm_compute; reflexivity|].
  reflexivity.
Qed.

(** C5. An amount that is an empty string, or white space only, is not a
    number, yet [Number] converts it to [0] and [route.ts], which has no
    check on the amount, builds a transfer of [0] units and answers 200; so
    does the helper variant for the blank string, which passes its presence
    check.  The sibling variants refuse the empty amount: [route.tsx] by its
    guard with the 400, the helper with the 500. *)
Theorem route_ts_accepts_empty_amount :
  (Url.get (Http.url empty_amount_request) "amount" = Some ""
   /\ JS.StringToNumber "" = JS.pos_zero
   /\ map (fun v => status_of (POST_of v devnet empty_amount_request))
          [route_ts; route_tsx_static; route_tsx; route_helper] =
      [Some 200; Some 400; Some 400; Some 500]%nat
   /\ filter is_Transfer (trace (RouteTs.POST devnet empty_amount_request)) =
      [Transfer {| fromPubkey := alice_key; toPubkey := bob_key;
                   lamports := JS.pos_zero |}])
  /\ (Url.get (Http.url blank_amount_request) "amount" = Some blank
      /\ JS.StringToNumber blank = JS.pos_zero
      /\ map (fun v => status_of (POST_of v devnet blank_amount_request))
             [route_ts; route_tsx_static; route_tsx; route_helper] =
         [Some 200; Some 400; Some 400; Some 200]%nat).
Proof.
  split.
  - split; [vm_compute; reflexivity|]. split; [vm_compute; reflexivity|].
    split; [vm_compute; reflexivity|]. reflexivity.
  - split; [vm_compute; reflexivity|]. split; vm_compute; reflexivity.
Qed.

(** C7. At the amount [8.2] every variant validates the request, but the
    [lamports] it hands to [SystemProgram.transfer] is the binary64 product
    [8.2 * 10^9 = 8598323199999999 * 2^-20], one unit in the last place
    below [8200000000] and not an integer: no instruction for 8.2 times 10^9
    units is built, the SDK refuses the number, the ledger is not asked, and
    every variant answers 500. *)
Theorem fractional_amount_is_not_scaled_exactly :
  validated route_tsx fractional_amount_request bob_key
    (Json.Val (Json.JString alice)) alice_key
  /\ validated route_helper fractional_amount_request bob_key
       (Json.Val (Json.JString alice)) alice_key
  /\ JS.mul (amount_of fractional_amount_request) LAMPORTS_PER_SOL =
     S754_finite false 8598323199999999 (-20)
  /\ JS.of_Z 8200000000 = S754_finite false 8598323200000000 (-20)
  /\ integer_of (JS.mul (amount_of fractional_amount_request) LAMPORTS_PER_SOL) =
     None
  /\ filter is_Transfer (trace (RouteTs.POST devnet fractional_amount_request)) =
     [Transfer {| fromPubkey := alice_key; toPubkey := bob_key;
                  lamports := S754_finite false 8598323199999999 (-20) |}]
  /\ map (fun v => existsb is_GetLatestBlockhash
                     (trace (POST_of v devnet fractional_amount_request)))
         [route_ts; route_tsx_static; route_tsx; route_helper] =
     [false; false; false; false]
  /\ map (fun v => status_of (POST_of v devnet fractional_amount_request))
         [route_ts; route_tsx_static; route_tsx; route_helper] =
     [Some 500; Some 500; Some 500; Some 500]%nat.
Proof.
  assert (Hk : keys_of fractional_amount_request bob_key
                 (Json.Val (Json.JString alice)) alice_key)
    by (repeat split; vm_compute; reflexivity).
  split; [|split].
  - split; [exact Hk|]. split; [intros _; vm_compute; reflexivity|discriminate].
  - split; [exact Hk|]. split; [discriminate|].
    intros _. repeat split; vm_compute; reflexivity.
  - split; [vm_compute; reflexivity|]. split; [vm_compute; reflexivity|].
    split; [vm_compute; reflexivity|]. split; [reflexivity|].
    split; vm_compute; reflexivity.
Qed.


(** C6, counterexample. The second document of [route.tsx], whose
    validation is inline, answers an empty-body 400. *)
Lemma inline_variant_answers_400 :
  ~ failure_responses_claimed route_tsx devnet zero_amount_request.
Proof.
  intro H. specialize (H (Http.new_Response None 400 tt)).
  destruct H as [[H _]|(_ & _ & H)].
  - unfold outcome.
    rewrite (POST_guard_rejects (W:=sdk) devnet route_tsx zero_amount_request
               bob_key (Json.Val (Json.JString alice)) alice_key);
      [reflexivity|reflexivity| |vm_compute; reflexivity].
    apply reference_keys. vm_compute. reflexivity.
  - discriminate.
  - discriminate H.
  - discriminate H.
Qed.


(** Negative and infinite amounts reach [prepareTransaction] in the variant
    with the guard as well. *)
Lemma negative_and_infinite_amounts_enter_construction :
  enters_construction route_tsx devnet negative_amount_request
    bob_key (Json.Val (Json.JString alice)) alice_key
  /\ enters_construction route_tsx devnet infinite_amount_request
       bob_key (Json.Val (Json.JString alice)) alice_key.
Proof.
  split; apply POST_enters_construction;
    try (intros _; vm_compute; reflexivity); try discriminate;
    apply reference_keys; vm_compute; reflexivity.
Qed.

Lemma numeric_amount_and_validation_witness :
  keys_of transfer_request bob_key (Json.Val (Json.JString alice)) alice_key
  /\ enters_construction route_tsx devnet transfer_request
       bob_key (Json.Val (Json.JString alice)) alice_key.
Proof.
  assert (Hk : keys_of transfer_request bob_key
                 (Json.Val (Json.JString alice)) alice_key)
    by (repeat split; vm_compute; reflexivity).
  split; [exact Hk|].
  destruct (numeric_amount_and_validation (W:=sdk) devnet route_tsx
              transfer_request _ _ _ "1.5" Hk) as (_ & Henters & _).
  - vm_compute. reflexivity.
  - vm_compute. reflexivity.
  - discriminate.
  - apply Henters. right. vm_compute. reflexivity.
Defined.

Lemma non_numeric_amount_not_200_witness :
  JS.is_nan (JS.StringToNumber "abc") = true
  /\ status_of (POST_of route_helper devnet non_numeric_amount_request)
     <> Some 200%nat.
Proof.
  split; [vm_compute; reflexivity|].
  apply (non_numeric_amount_not_200 (W:=sdk) devnet reference_transfer_refuses_nan
           route_helper non_numeric_amount_request "abc").
  - vm_compute. reflexivity.
  - vm_compute. reflexivity.
Defined.

Lemma transfer_moves_scaled_amount_witness :
  filter is_Transfer (trace (POST_of route_ts devnet transfer_request)) =
  [Transfer {| fromPubkey := alice_key; toPubkey := bob_key;
               lamports := JS.mul (amount_of transfer_request)
                                  (JS.of_Z 1000000000) |}].
Proof.
  apply (transfer_moves_scaled_amount (W:=sdk) devnet (fun k => eq_refl)
           route_ts transfer_request bob_key
           (Json.Val (Json.JString alice)) alice_key).
  - repeat split; vm_compute; reflexivity.
  - discriminate.
  - discriminate.
Defined.


Lemma inline_guard_400_witness :
  inline_guard route_tsx = true
  /\ outcome (POST_of route_tsx devnet zero_amount_request) = inr empty_400.
Proof.
  split; [reflexivity|].
  destruct (inline_guard_400 (W:=sdk) devnet eq_refl route_tsx zero_amount_request eq_refl)
    as (_ & H400 & _).
  apply H400. split.
  - exists bob_key, (Json.Val (Json.JString alice)), alice_key.
    repeat split; vm_compute; reflexivity.
  - left. vm_compute. reflexivity.
Defined.


Lemma verifyTransferInstruction_checks_presence_only_witness :
  outcome (RouteHelper.verifyTransferInstruction non_numeric_amount_request) =
  inr {| RouteHelper.receiver := bob_key;
         RouteHelper.amount := JS.NaN;
         RouteHelper.payer := alice_key |}.
Proof.
  destruct (verifyTransferInstruction_checks_presence_only (W:=sdk) devnet
              non_numeric_amount_request) as (H & _).
  apply H.
  exists (Json.JObject [("account", Json.JString alice)]), bob, "abc",
    (Json.Val (Json.JString alice)).
  repeat split; try (vm_compute; reflexivity); discriminate.
Defined.

End Runs.

(* ===================================================================== *)
(** * Further runs *)
(* ===================================================================== *)

Section FurtherRuns.
Import Reference.

Lemma guard_is_the_only_difference_witness :
  JS.number_truthy (amount_of transfer_request) = true
  /\ POST_of route_tsx devnet transfer_request =
     POST_of route_ts devnet transfer_request.
Proof.
  split; [vm_compute; reflexivity|].
  apply (guard_is_the_only_difference (W:=sdk) devnet route_tsx transfer_request).
  - reflexivity.
  - intro H. vm_compute in H. discriminate H.
Defined.

Lemma helper_agrees_once_present_witness :
  helper_presence transfer_request (Json.Val (Json.JString alice))
  /\ POST_of route_helper devnet transfer_request =
     POST_of route_ts devnet transfer_request.
Proof.
  assert (Hp : helper_presence transfer_request (Json.Val (Json.JString alice)))
    by (repeat split; vm_compute; reflexivity).
  split; [exact Hp|].
  apply (helper_agrees_once_present (W:=sdk) devnet transfer_request
           (Json.JObject [("account", Json.JString alice)])
           (Json.Val (Json.JString alice))).
  - reflexivity.
  - vm_compute. reflexivity.
  - exact Hp.
Defined.

Lemma GET_depends_on_origin_only_witness :
  Http.url metadata_request <> Http.url transfer_request_with_extras
  /\ GET_of route_ts metadata_request =
     GET_of route_ts transfer_request_with_extras.
Proof.
  split; [discriminate|].
  apply (GET_depends_on_origin_only (W:=sdk) route_ts metadata_request
           transfer_request_with_extras); reflexivity.
Defined.

Lemma unusable_body_answers_500_witness :
  Http.json metadata_request = None
  /\ POST_of route_helper devnet metadata_request = ([], inr error_500).
Proof.
  split; [reflexivity|].
  apply (unusable_body_answers_500 (W:=sdk) devnet route_helper metadata_request).
  left. reflexivity.
Defined.

Lemma missing_fields_answer_500_witness :
  Url.get (Http.url missing_receiver_request) "receiver" = None
  /\ outcome (POST_of route_ts devnet missing_receiver_request) = inr error_500.
Proof.
  assert (Hnone : Url.get (Http.url missing_receiver_request) "receiver" = None)
    by (vm_compute; reflexivity).
  split; [exact Hnone|].
  apply (missing_fields_answer_500 (W:=sdk) devnet eq_refl eq_refl route_ts
           missing_receiver_request).
  left. exact Hnone.
Defined.

Lemma POST_reads_only_declared_parameters_witness :
  Http.url transfer_request <> Http.url transfer_request_with_extras
  /\ POST_of route_tsx devnet transfer_request =
     POST_of route_tsx devnet transfer_request_with_extras.
Proof.
  split; [discriminate|].
  apply (POST_reads_only_declared_parameters (W:=sdk) devnet route_tsx
           metadata_request transfer_request transfer_request_with_extras).
  - intros name [<-|[<-|[]]]; vm_compute; reflexivity.
  - vm_compute. reflexivity.
Defined.

Lemma verifyTransferInstruction_rejections_witness :
  RouteHelper.POST devnet missing_amount_request = ([], inr error_500).
Proof.
  destruct (verifyTransferInstruction_rejections (W:=sdk) devnet
              missing_amount_request
              (InvalidTransferInstruction (Error "Amount is required")))
    as (_ & Htrace & Hpost).
  - reflexivity.
  - rewrite Hpost, Htrace; [reflexivity|]. now eexists.
Defined.

Lemma verifyTransferInstruction_presence_order_witness :
  RouteHelper.verifyTransferInstruction missing_receiver_request =
  ([], inl (InvalidTransferInstruction (Error "Receiver address is required"))).
Proof.
  destruct (verifyTransferInstruction_presence_order (W:=sdk)
              missing_receiver_request) as (_ & H).
  destruct (H (Json.JObject [("account", Json.JString alice)]) eq_refl)
    as (Hreceiver & _).
  apply Hreceiver. vm_compute. reflexivity.
Defined.

Lemma POST_answers_200_exactly_when_built_witness :
  status_of (POST_of route_helper devnet transfer_request) = Some 200%nat
  /\ exists bytes,
       outcome (POST_of route_helper devnet transfer_request) =
       inr (transaction_response bytes).
Proof.
  assert (Hv : validated route_helper transfer_request bob_key
                 (Json.Val (Json.JString alice)) alice_key).
  { split; [repeat split; vm_compute; reflexivity|].
    split; [discriminate|]. intros _. repeat split; vm_compute; reflexivity. }
  assert (Hb : built (W:=sdk) devnet alice_key bob_key (amount_of transfer_request)
                 (little_endian 8 1500000000)).
  { unfold built. do 5 eexists. repeat split; vm_compute; reflexivity. }
  destruct (POST_answers_200_exactly_when_built (W:=sdk) devnet route_helper
              transfer_request) as (H200 & Hbody).
  split.
  - apply H200. exists bob_key, (Json.Val (Json.JString alice)), alice_key,
      (little_endian 8 1500000000). split; assumption.
  - exists (little_endian 8 1500000000).
    apply (Hbody bob_key (Json.Val (Json.JString alice)) alice_key); assumption.
Defined.

Lemma ledger_asked_only_for_built_instruction_witness :
  existsb is_GetLatestBlockhash
    (trace (POST_of route_ts devnet transfer_request)) = true
  /\ exists receiver account payer,
       validated route_ts transfer_request receiver account payer.
Proof.
  assert (Hasked : existsb is_GetLatestBlockhash
                     (trace (POST_of route_ts devnet transfer_request)) = true)
    by (vm_compute; reflexivity).
  split; [exact Hasked|].
  apply existsb_exists in Hasked as (c & Hin & Hc).
  destruct c; try discriminate Hc.
  destruct (ledger_asked_only_for_built_instruction (W:=sdk) devnet route_ts
              transfer_request) as (_ & H).
  destruct (H _ Hin) as (_ & r & a & p & _ & _ & Hv & _).
  exists r, a, p. exact Hv.
Defined.

End FurtherRuns.
